(** * ai_c_tutor: progress store, completion request and topic-selection handlers

    A shallow embedding of [ai_c_tutor.py], the Streamlit script of the
    AI C programming tutor, together with the properties of its progress
    store ([load_progress], [save_progress], [reset_progress]), of the
    progress percentage, of [get_explanation] and of the button handlers.

    Conventions of the embedding:
    - Python values that travel through JSON are the type [json]; a Python
      [dict] with string keys is a [gmap string json].  Only the lookups of
      a dictionary are used, never its iteration order, except by [sum],
      whose result does not depend on the order.
    - The file system is a map from path to what is there: a directory, or
      a file, whose content is the JSON value its text denotes or [Garbage]
      when the text is not JSON.  A file is found under the path it was
      written under: two spellings of one file are two keys, and no
      property below relates the files of two user names.  Opening a file
      for writing fails when the directory of the path is not there;
      permissions and full disks are not modelled.  Numbers with a fraction
      or an exponent are not part of [json], and the export handler, which
      appends to a log that nothing reads back, is left out.
    - Python exceptions are the type [exn]; a computation that may raise
      returns a [result].  Code that reads or writes files, the session or
      the network is a function from [world] to a result and a new world:
      what was written before an exception stays written, as in Python.
    - [st.rerun()] leaves the script run the way an exception does, and is
      the pseudo-exception [RerunException].
    - Python floats are binary64 numbers, computed with the operations of
      [SpecFloat] at precision 53.
    - Rendering calls ([st.markdown], [st.success], the metric) change
      neither session, files nor network and are left out; of the progress
      bar the check of its argument is kept.  [page] is one run of the
      script for a user who has logged in. *)

From Stdlib Require Import ZArith SpecFloat DecimalString Ascii.
From stdpp Require Import gmap strings list fin_maps.

#[local] Open Scope string_scope.
#[local] Open Scope Z_scope.

(** ** Values, exceptions and results *)

#[warnings="-register-all"]
Inductive json : Type :=
  | JNull
  | JBool (b : bool)
  | JInt (n : Z)
  | JStr (s : string)
  | JArr (l : list json)
  | JObj (d : gmap string json).

Inductive exn : Type :=
  | ZeroDivisionError
  | KeyError (key : json)
  | IndexError
  | TypeError
  | AttributeError
  | JSONDecodeError
  | ValueError
  | OverflowError
  | RequestException
  | RerunException
  | FileNotFoundError
  | IsADirectoryError
  | NotADirectoryError
  | StreamlitAPIException.

Inductive result (A : Type) : Type :=
  | Ok (a : A)
  | Raise (e : exn).
Arguments Ok {A} a.
Arguments Raise {A} e.

#[export] Instance result_ret : MRet result := λ A a, Ok a.
#[export] Instance result_bind : MBind result := λ A B f r,
  match r with
  | Ok a => f a
  | Raise e => Raise e
  end.

(** ** Python primitives used by the script *)

(** [bool(v)]: the truth value of [v], as [not] and [if] take it. *)
Definition truthy (v : json) : bool :=
  match v with
  | JNull => false
  | JBool b => b
  | JInt n => negb (n =? 0)
  | JStr s => match s with EmptyString => false | String _ _ => true end
  | JArr l => match l with [] => false | _ :: _ => true end
  | JObj d => negb (bool_decide (d = ∅))
  end.

(** [d[key]] on a dictionary. *)
Definition dict_getitem (d : gmap string json) (key : string) : result json :=
  match d !! key with
  | Some v => Ok v
  | None => Raise (KeyError (JStr key))
  end.

(** [data.get(key, dflt)]: only a dictionary has the method. *)
Definition py_get (data : json) (key : string) (dflt : json) : result json :=
  match data with
  | JObj d => Ok (default dflt (d !! key))
  | _ => Raise AttributeError
  end.

(** [{k: f(k) for k in keys}], filled from left to right into [acc]. *)
Fixpoint dict_comprehension (f : string → result json) (keys : list string)
    (acc : gmap string json) : result (gmap string json) :=
  match keys with
  | [] => Ok acc
  | k :: keys' => v ← f k; dict_comprehension f keys' (<[k := v]> acc)
  end.

(** [acc + v] for an integer [acc]: Booleans count as 0 and 1. *)
Definition py_add (acc : Z) (v : json) : result Z :=
  match v with
  | JBool b => Ok (acc + Z.b2z b)
  | JInt n => Ok (acc + n)
  | _ => Raise TypeError
  end.

(** [sum(vs)], started from [acc]. *)
Fixpoint py_sum_from (acc : Z) (vs : list json) : result Z :=
  match vs with
  | [] => Ok acc
  | v :: vs' => acc' ← py_add acc v; py_sum_from acc' vs'
  end.

Definition py_sum (vs : list json) : result Z := py_sum_from 0 vs.

(** [d.values()]. *)
Definition dict_values (d : gmap string json) : list json := (map_to_list d).*2.

(** [str(n)] for an integer. *)
Definition py_str (n : Z) : string := NilZero.string_of_int (Z.to_int n).

(** [os.path.join(a, b)] of posixpath. *)
Definition path_join (a b : string) : string :=
  if String.prefix "/" b then b
  else if bool_decide (a = "") || String.prefix "/" (String.rev a) then a +:+ b
  else a +:+ "/" +:+ b.

(** ** The world the script runs in *)

Inductive filedata : Type :=
  | JsonText (j : json)
  | Garbage
  | Directory.

(** An HTTP request as [requests.post(url, headers=..., json=...)] sends it. *)
Record request : Type := mkRequest {
  req_url : string;
  req_headers : gmap string string;
  req_json : json
}.

(** A response: [res.status_code], [res.text], and what [res.json()] gives
    ([None] when the body is not JSON and [res.json()] raises). *)
Record response : Type := mkResponse {
  status_code : Z;
  text : string;
  body_json : option json
}.

(** [st.session_state]: a key that is absent is [None]; a key set to
    Python's [None] is [Some JNull]. *)
Record session_state : Type := mkSession {
  selected_concept : option string;
  explanation : option json;
  quiz : option json;
  example : option json
}.

(** [environ] is the process environment after [load_dotenv()]; [outbox]
    the requests sent so far, oldest first; [network] the remote side: its
    answer to a request given the requests sent before it, [None] when
    [requests.post] raises instead of returning. *)
Record world : Type := mkWorld {
  environ : gmap string string;
  files : gmap string filedata;
  session : session_state;
  outbox : list request;
  network : list request → request → option response
}.

Definition M (A : Type) : Type := world → result A * world.

#[export] Instance M_ret : MRet M := λ A a w, (Ok a, w).
#[export] Instance M_bind : MBind M := λ A B f m w,
  match m w with
  | (Ok a, w') => f a w'
  | (Raise e, w') => (Raise e, w')
  end.

Definition raise {A : Type} (e : exn) : M A := λ w, (Raise e, w).
Definition lift {A : Type} (r : result A) : M A := λ w, (r, w).

Definition set_files (f : gmap string filedata) (w : world) : world :=
  mkWorld (environ w) f (session w) (outbox w) (network w).
Definition set_session (s : session_state) (w : world) : world :=
  mkWorld (environ w) (files w) s (outbox w) (network w).
Definition set_outbox (o : list request) (w : world) : world :=
  mkWorld (environ w) (files w) (session w) o (network w).

(** ** Load / save progress (lines 91-111) *)

Definition USER_DIR : string := "user_data_c".

Definition get_user_file (username : string) : string :=
  path_join USER_DIR (username +:+ "_progress.json").

(** Lines 92-93: the directory is made when nothing is at its path. *)
Definition ensure_user_dir : M unit := λ w,
  if bool_decide (is_Some (files w !! USER_DIR)) then (Ok (), w)
  else (Ok (), set_files (<[USER_DIR := Directory]> (files w)) w).

(** The names of a path, which slashes separate. *)
Fixpoint split_path (path : string) : list string :=
  match path with
  | EmptyString => [EmptyString]
  | String c rest =>
      if Ascii.eqb c "/" then EmptyString :: split_path rest
      else match split_path rest with
           | [] => [String c EmptyString]
           | name :: names => String c name :: names
           end
  end.

(** The path made of the names [names], from the root or from the
    working directory. *)
Definition join_path (absolute : bool) (names : list string) : string :=
  (if absolute then "/" else "") +:+ String.concat "/" names.

(** The operating system following the directory names [names] from the
    directory [here]: empty names and [.] stay, [..] goes up, any other
    name must be a directory that is there.  The root, the working
    directory and the directories above it are always there. *)
Fixpoint walk (fs : gmap string filedata) (absolute : bool) (here names : list string)
    : result (list string) :=
  match names with
  | [] => Ok here
  | name :: names' =>
      if bool_decide (name = "") || bool_decide (name = ".") then
        walk fs absolute here names'
      else if bool_decide (name = "..") then
        match reverse here with
        | [] => walk fs absolute (if absolute then [] else [".."]) names'
        | last :: before =>
            if bool_decide (last = "..") then walk fs absolute (here ++ [".."])%list names'
            else walk fs absolute (reverse before) names'
        end
      else
        let there := (here ++ [name])%list in
        match fs !! join_path absolute there with
        | Some Directory => walk fs absolute there names'
        | Some _ => Raise NotADirectoryError
        | None => Raise FileNotFoundError
        end
  end.

(** The directory that the last name of [path] is looked up in. *)
Definition parent_directory (fs : gmap string filedata) (path : string)
    : result (list string) :=
  walk fs (String.prefix "/" path) [] (removelast (split_path path)).

(** [open(path, "w")]: a file that is there is overwritten; a new file
    needs its directory. *)
Definition open_for_writing (fs : gmap string filedata) (path : string) : result unit :=
  match fs !! path with
  | Some Directory => Raise IsADirectoryError
  | Some _ => Ok ()
  | None => _ ← parent_directory fs path; Ok ()
  end.


Definition load_progress (topics : list string) (username : string)
    : M (gmap string json) := λ w,
  let path := get_user_file username in
  match files w !! path with
  | Some content =>
      match content with
      | JsonText data =>
          (dict_comprehension (λ topic, py_get data topic (JBool false)) topics ∅, w)
      | Garbage => (Raise JSONDecodeError, w)
      | Directory => (Raise IsADirectoryError, w)
      end
  | None => (dict_comprehension (λ topic, Ok (JBool false)) topics ∅, w)
  end.

Definition save_progress (progress : gmap string json) (username : string)
    : M unit := λ w,
  let path := get_user_file username in
  match open_for_writing (files w) path with
  | Ok _ => (Ok (), set_files (<[path := JsonText (JObj progress)]> (files w)) w)
  | Raise e => (Raise e, w)
  end.

Definition reset_progress (topics : list string) (username : string) : M unit :=
  progress ← lift (dict_comprehension (λ topic, Ok (JBool false)) topics ∅);
  save_progress progress username.

(** ** Progress bar (lines 163-167) *)

(** Python floats are binary64: 53 bits of precision, exponents below 1024. *)
Definition prec64 : Z := 53.
Definition emax64 : Z := 1024.

(** An integer as an exact, not yet rounded, binary float. *)
Definition exact_int (z : Z) : spec_float :=
  match z with
  | Z0 => S754_zero false
  | Zpos p => S754_finite false p 0
  | Zneg p => S754_finite true p 0
  end.

(** [float(z)] in binary64. *)
Definition float_of_int (z : Z) : spec_float := binary_normalize prec64 emax64 z 0 false.

(** [a / b] on integers: the quotient rounded once to binary64. *)
Definition true_div (a b : Z) : result spec_float :=
  if b =? 0 then Raise ZeroDivisionError
  else match SFdiv prec64 emax64 (exact_int a) (exact_int b) with
       | S754_infinity _ => Raise OverflowError
       | q => Ok q
       end.

(** [int(x)]: truncation towards zero. *)
Definition py_int (x : spec_float) : result Z :=
  match x with
  | S754_zero _ => Ok 0
  | S754_finite s m e =>
      let a := match e with
               | Z0 => Z.pos m
               | Z.pos _ => Z.shiftl (Z.pos m) e
               | Z.neg _ => Z.shiftr (Z.pos m) (- e)
               end in
      Ok (if s then - a else a)
  | S754_infinity _ => Raise OverflowError
  | S754_nan => Raise ValueError
  end.

(** [int((completed / total) * 100)] (line 165). *)
Definition percent_of_counts (completed total : Z) : result Z :=
  ratio ← true_div completed total;
  py_int (SFmul prec64 emax64 ratio (float_of_int 100)).

Definition percent (progress : gmap string json) (ROADMAP : list string) : result Z :=
  completed ← py_sum (dict_values progress);
  let total := Z.of_nat (length ROADMAP) in
  percent_of_counts completed total.

(** [st.sidebar.progress(percent / 100)] (line 167): the bar takes a value
    from 0.0 to 1.0 and raises for any other. *)
Definition st_progress (percent : Z) : result unit :=
  value ← true_div percent 100;
  if SFleb (float_of_int 0) value && SFleb value (float_of_int 1) then Ok ()
  else Raise StreamlitAPIException.

(** ** Roadmap and domains (lines 25-86, 155-158) *)

Definition CORE_C_TOPICS : list string := [
  "C Setup: GCC, IDEs (VS Code, Code::Blocks), CLI Compilation";
  "Data Types and Variables";
  "Operators (Arithmetic, Logical, Bitwise)";
  "Control Flow (if, else, switch)";
  "Loops (for, while, do-while)";
  "Functions and Recursion";
  "Arrays and Strings";
  "Pointers and Dynamic Memory";
  "Structures and Unions";
  "File Handling";
  "Header Files and Modular C";
  "Makefile and Compilation Units";
  "Preprocessor Directives";
  "Command Line Arguments";
  "Debugging with GDB and Valgrind"
].

Definition C_DOMAINS : list (string * list string) := [
  ("None", []);
  ("Systems Programming", [
     "Processes and Forking";
     "Signals and Pipes";
     "Sockets (TCP/UDP Basics)";
     "Multithreading with pthreads";
     "Daemon Processes and IPC"]);
  ("Embedded Systems", [
     "Bitwise Operations for Port Manipulation";
     "Microcontroller Programming (e.g., Arduino)";
     "Interrupt Handling";
     "Timer and Delay Logic";
     "Serial Communication (UART)"]);
  ("Operating Systems", [
     "Process Scheduling Concepts";
     "Virtual Memory and Paging";
     "Writing a Shell";
     "Lexers and Parsers (Flex & Bison)";
     "Toy Compiler and File System Simulator"]);
  ("Reverse Engineering", [
     "Buffer Overflow and Stack Smashing";
     "Format String Vulnerabilities";
     "Binary Exploitation with GDB";
     "Shellcode Basics"]);
  ("Game Development", [
     "Graphics with SDL2";
     "Game Loops and Timers";
     "Collision Detection";
     "2D Game Physics";
     "Sound Integration (SDL_Mixer)"]);
  ("DSA in C", [
     "Linked Lists and Trees";
     "Stacks and Queues";
     "Graphs (DFS, BFS)";
     "Sorting and Searching Algorithms";
     "Hashing and Map Implementation"])
].

(** [C_DOMAINS[domain]]. *)
Fixpoint domains_getitem (table : list (string * list string)) (domain : string)
    : result (list string) :=
  match table with
  | [] => Raise (KeyError (JStr domain))
  | (name, topics) :: table' =>
      if bool_decide (name = domain) then Ok topics else domains_getitem table' domain
  end.

(** Lines 155-158. *)
Definition roadmap_for (domain : string) : result (list string) :=
  if bool_decide (domain = "None") then Ok CORE_C_TOPICS
  else domains_getitem C_DOMAINS domain.

(** ** Completion request (lines 13-20, 116-131) *)

Definition MODEL : string := "deepseek/deepseek-chat-v3-0324:free".
Definition API_URL : string := "https://openrouter.ai/api/v1/chat/completions".

(** [f"Bearer {API_KEY}"] prints a missing key as [None]. *)
Definition HEADERS (w : world) : gmap string string :=
  let API_KEY := default "None" (environ w !! "OPENROUTER_API_KEY") in
  <["Authorization" := "Bearer " +:+ API_KEY]>
    (<["Content-Type" := "application/json"]>
      (<["HTTP-Referer" := "http://localhost"]> ∅)).

(** [requests.post(url, headers=HEADERS, json=payload)]. *)
Definition requests_post (url : string) (payload : json) : M response := λ w,
  let req := mkRequest url (HEADERS w) payload in
  let w' := set_outbox (outbox w ++ [req]) w in
  match network w (outbox w) req with
  | Some res => (Ok res, w')
  | None => (Raise RequestException, w')
  end.

(** [res.json()]. *)
Definition res_json (res : response) : result json :=
  match body_json res with
  | Some j => Ok j
  | None => Raise JSONDecodeError
  end.

(** [v[key]] with a string key. *)
Definition subscript (v : json) (key : string) : result json :=
  match v with
  | JObj d => dict_getitem d key
  | _ => Raise TypeError
  end.

(** [v[i]] with a non-negative integer index. *)
Definition subscript_int (v : json) (i : nat) : result json :=
  match v with
  | JArr l => match l !! i with Some x => Ok x | None => Raise IndexError end
  | JStr s => match String.get i s with
              | Some c => Ok (JStr (String c EmptyString))
              | None => Raise IndexError
              end
  | JObj _ => Raise (KeyError (JInt (Z.of_nat i)))
  | _ => Raise TypeError
  end.

Definition get_explanation (concept : string) (quiz example : bool) : M json :=
  let instruction := "Explain the C programming concept clearly with code examples." in
  let instruction :=
    if quiz then "Create a multiple choice quiz (3-4 options) with correct answer for:"
    else if example then "Give a real-world example with code and explanation for:"
    else instruction in
  let messages := JArr [
    JObj (<["role" := JStr "system"]>
            (<["content" := JStr "You are a helpful C programming tutor."]> ∅));
    JObj (<["role" := JStr "user"]>
            (<["content" := JStr (instruction +:+ " " +:+ concept)]> ∅))
  ] in
  let payload := JObj (<["model" := JStr MODEL]> (<["messages" := messages]> ∅)) in
  res ← requests_post API_URL payload;
  if status_code res =? 200 then
    lift (body ← res_json res;
          choices ← subscript body "choices";
          choice ← subscript_int choices 0;
          message ← subscript choice "message";
          subscript message "content")
  else
    mret (JStr ("❌ Error " +:+ py_str (status_code res) +:+ ": " +:+ text res)).

(** ** Session state *)

Definition assign_selected_concept (v : string) : M unit := λ w,
  let s := session w in
  (Ok (), set_session (mkSession (Some v) (explanation s) (quiz s) (example s)) w).

Definition assign_explanation (v : json) : M unit := λ w,
  let s := session w in
  (Ok (), set_session (mkSession (selected_concept s) (Some v) (quiz s) (example s)) w).

Definition assign_quiz (v : json) : M unit := λ w,
  let s := session w in
  (Ok (), set_session (mkSession (selected_concept s) (explanation s) (Some v) (example s)) w).

Definition assign_example (v : json) : M unit := λ w,
  let s := session w in
  (Ok (), set_session (mkSession (selected_concept s) (explanation s) (quiz s) (Some v)) w).

(** [st.session_state.pop("selected_concept")]. *)
Definition pop_selected_concept : M unit := λ w,
  let s := session w in
  match selected_concept s with
  | Some _ => (Ok (), set_session (mkSession None (explanation s) (quiz s) (example s)) w)
  | None => (Raise (KeyError (JStr "selected_concept")), w)
  end.

(** [st.session_state.explanation], read for display (line 193). *)
Definition read_explanation : M json := λ w,
  match explanation (session w) with
  | Some v => (Ok v, w)
  | None => (Raise AttributeError, w)
  end.

Definition st_rerun {A : Type} : M A := raise RerunException.

(** ** Concept selector and button handlers (lines 180-230) *)

(** [[c for c in ROADMAP if not progress[c]]]. *)
Fixpoint available_concepts (progress : gmap string json) (ROADMAP : list string)
    : result (list string) :=
  match ROADMAP with
  | [] => Ok []
  | c :: rest =>
      v ← dict_getitem progress c;
      tl ← available_concepts progress rest;
      Ok (if truthy v then tl else c :: tl)
  end.

(** The roadmap in the sidebar (lines 171-173): one row per topic. *)
Fixpoint sidebar_rows (progress : gmap string json) (ROADMAP : list string)
    : result (list string) :=
  match ROADMAP with
  | [] => Ok []
  | topic :: rest =>
      v ← dict_getitem progress topic;
      rows ← sidebar_rows progress rest;
      Ok (((if truthy v then "✅" else "⬜") +:+ " " +:+ topic) :: rows)
  end.

(** [l.index(x)]. *)
Fixpoint py_index (x : string) (l : list string) : result nat :=
  match l with
  | [] => Raise ValueError
  | y :: l' => if bool_decide (y = x) then Ok 0%nat else i ← py_index x l'; Ok (S i)
  end.

(** [st.selectbox(label, options, index=0)] on a list that is not empty:
    the option the user picked, the first one until they pick. *)
Definition selectbox (options : list string) (picked : nat) : string :=
  default (default "" (head options)) (options !! picked).

(** Lines 183-187. *)
Definition teach_me (selected : string) : M unit :=
  assign_selected_concept selected;;
  e ← get_explanation selected false false;
  assign_explanation e;;
  assign_quiz JNull;;
  assign_example JNull.

(** Lines 197-199. *)
Definition regenerate (concept : string) : M unit :=
  e ← get_explanation concept false false;
  assign_explanation e;;
  st_rerun.

(** Lines 201-205. *)
Definition mark_done (progress : gmap string json) (username concept : string) : M unit :=
  let progress := <[concept := JBool true]> progress in
  save_progress progress username;;
  pop_selected_concept;;
  st_rerun.

(** Lines 207-212. *)
Definition next (available : list string) (concept : string) : M unit :=
  idx ← lift (if bool_decide (concept ∈ available)
              then (i ← py_index concept available; Ok (i + 1)%nat)
              else Ok 0%nat);
  if (idx <? length available)%nat then
    target ← lift (match available !! idx with
                   | Some c => Ok c
                   | None => Raise IndexError
                   end);
    assign_selected_concept target;;
    e ← get_explanation target false false;
    assign_explanation e;;
    st_rerun
  else mret ().

(** Lines 220-221. *)
Definition show_example (concept : string) : M unit :=
  e ← get_explanation concept false true;
  assign_example e.

(** Lines 226-227. *)
Definition give_quiz (concept : string) : M unit :=
  q ← get_explanation concept true false;
  assign_quiz q.

(** What the widgets return in one run of the script. *)
Record widgets : Type := mkWidgets {
  domain : string;
  reset_button : bool;
  picked : nat;
  teach_button : bool;
  regenerate_button : bool;
  mark_done_button : bool;
  next_button : bool;
  example_button : bool;
  quiz_button : bool
}.

Definition when (b : bool) (m : M unit) : M unit := if b then m else mret ().

(** One run of the script for a logged-in user (lines 150-233). *)
Definition page (username : string) (ui : widgets) : M unit :=
  ROADMAP ← lift (roadmap_for (domain ui));
  progress ← load_progress ROADMAP username;
  percent ← lift (percent progress ROADMAP);
  _ ← lift (st_progress percent);
  _ ← lift (sidebar_rows progress ROADMAP);
  when (reset_button ui) (reset_progress ROADMAP username;; st_rerun);;
  available ← lift (available_concepts progress ROADMAP);
  when (match available with [] => false | _ :: _ => true end)
    (when (teach_button ui) (teach_me (selectbox available (picked ui))));;
  concept ← (λ w, (Ok (selected_concept (session w)), w));
  match concept with
  | Some concept =>
      _ ← read_explanation;
      when (regenerate_button ui) (regenerate concept);;
      when (mark_done_button ui) (mark_done progress username concept);;
      when (next_button ui) (next available concept);;
      when (example_button ui) (show_example concept);;
      when (quiz_button ui) (give_quiz concept)
  | None => mret ()
  end.

(** ** Vocabulary of the properties *)

(** The record that maps every topic of [topics] to [False]. *)
Definition all_false (topics : list string) : gmap string json :=
  gset_to_gmap (JBool false) (list_to_set topics).

(** The part of a record that concerns [topics]. *)
Definition restrict (topics : list string) (R : gmap string json) : gmap string json :=
  filter (λ kv, kv.1 ∈ topics) R.

(** A record of the data model: every flag is a Boolean. *)
Definition boolean_flags (progress : gmap string json) : Prop :=
  ∀ k v, progress !! k = Some v → ∃ b, v = JBool b.

(** The number of flags of a record that are true. *)
Definition completed_count (progress : gmap string json) : nat :=
  length (filter (λ v, truthy v = true) (dict_values progress)).

(** [percent_of_counts] agrees with the integer quotient for every total
    from 1 to [n] and every count up to the total. *)
Definition percent_table_ok (n : nat) : bool :=
  forallb (λ t,
    forallb (λ c,
      match percent_of_counts (Z.of_nat c) (Z.of_nat t) with
      | Ok p => p =? 100 * Z.of_nat c / Z.of_nat t
      | Raise _ => false
      end) (seq 0 (S t))) (seq 1 n).

(** The three instruction templates, and the one a pair of mode flags
    selects. *)
Definition EXPLAIN_INSTRUCTION : string :=
  "Explain the C programming concept clearly with code examples.".
Definition QUIZ_INSTRUCTION : string :=
  "Create a multiple choice quiz (3-4 options) with correct answer for:".
Definition EXAMPLE_INSTRUCTION : string :=
  "Give a real-world example with code and explanation for:".

Definition instruction_of (quiz example : bool) : string :=
  if quiz then QUIZ_INSTRUCTION
  else if example then EXAMPLE_INSTRUCTION
  else EXPLAIN_INSTRUCTION.

(** The chat request whose user message is [instruction], a space and
    [concept]. *)
Definition chat_request (w : world) (instruction concept : string) : request :=
  mkRequest API_URL (HEADERS w)
    (JObj (<["model" := JStr MODEL]>
      (<["messages" := JArr [
           JObj (<["role" := JStr "system"]>
                   (<["content" := JStr "You are a helpful C programming tutor."]> ∅));
           JObj (<["role" := JStr "user"]>
                   (<["content" := JStr (instruction +:+ " " +:+ concept)]> ∅))
         ]]> ∅))).

(** What is made of a response, whatever the mode of the request was. *)
Definition reading (res : response) : result json :=
  if status_code res =? 200 then
    body ← res_json res;
    choices ← subscript body "choices";
    choice ← subscript_int choices 0;
    message ← subscript choice "message";
    subscript message "content"
  else Ok (JStr ("❌ Error " +:+ py_str (status_code res) +:+ ": " +:+ text res)).

(** Sending [req] and reading the answer. *)
Definition exchange (req : request) : M json := λ w,
  (match network w (outbox w) req with
   | Some res => reading res
   | None => Raise RequestException
   end,
   set_outbox (outbox w ++ [req]) w).

(** Whether the record marks [c] completed, as [if progress[c]] sees it. *)
Definition flag_set (progress : gmap string json) (c : string) : bool :=
  match progress !! c with
  | Some v => truthy v
  | None => false
  end.

(** The topics of [topics] that are not marked completed, in order. *)
Definition remaining (progress : gmap string json) (topics : list string) : list string :=
  filter (λ c, flag_set progress c = false) topics.

(** What [next] does when it moves on: select [target] and ask for its
    explanation. *)
Definition advance_to (target : string) : M unit :=
  assign_selected_concept target;;
  e ← get_explanation target false false;
  assign_explanation e;;
  st_rerun.

(** A session entry that holds no generated text: absent, or [None]. *)
Definition holds_no_text (entry : option json) : Prop :=
  entry = None ∨ entry = Some JNull.

(** The session after a complete clearing. *)
Definition cleared (s : session_state) : Prop :=
  selected_concept s = None
  ∧ holds_no_text (explanation s) ∧ holds_no_text (quiz s) ∧ holds_no_text (example s).

(** ** Sample worlds *)

(** A service that answers every request with a completion. *)
Definition completion (content : string) : response :=
  mkResponse 200 ""
    (Some (JObj (<["choices" := JArr [
       JObj (<["message" := JObj (<["content" := JStr content]> ∅)]> ∅)]]> ∅))).

Definition answering (content : string) : list request → request → option response :=
  λ _ _, Some (completion content).

(** A service that refuses every request. *)
Definition refusing (code : Z) (body : string) : list request → request → option response :=
  λ _ _, Some (mkResponse code body None).

(** The files after the first start of the script: the user directory and
    nothing else. *)
Definition fresh_files : gmap string filedata := <[USER_DIR := Directory]> ∅.

(** A learner in the middle of topic [concept], with explanation, quiz and
    example on screen, and [stored] on disk for [user]. *)
Definition studying (user concept : string) (stored : option (gmap string json))
    (net : list request → request → option response) : world :=
  mkWorld ∅
    (match stored with
     | Some d => <[get_user_file user := JsonText (JObj d)]> fresh_files
     | None => fresh_files
     end)
    (mkSession (Some concept) (Some (JStr "old explanation"))
       (Some (JStr "old quiz")) (Some (JStr "old example")))
    [] net.

(** A learner who has not selected anything yet. *)
Definition idle (user : string) (stored : option (gmap string json))
    (net : list request → request → option response) : world :=
  mkWorld ∅
    (match stored with
     | Some d => <[get_user_file user := JsonText (JObj d)]> fresh_files
     | None => fresh_files
     end)
    (mkSession None None None None)
    [] net.

(** The widgets of a run in domain [d] with one button pressed. *)
Definition click_regenerate (d : string) : widgets :=
  mkWidgets d false 0 false true false false false false.
Definition click_mark_done (d : string) : widgets :=
  mkWidgets d false 0 false false true false false false.
Definition click_next (d : string) : widgets :=
  mkWidgets d false 0 false false false true false false.

(** Fifty topics named by their number, and the record over them in which
    the first [k] are completed. *)
Definition FIFTY : list string := (λ i, py_str (Z.of_nat i)) <$> seq 0 50.

Definition first_done (k : nat) (topics : list string) : gmap string json :=
  foldl (λ m t, <[t := JBool true]> m) (all_false topics) (take k topics).

(** The topics of the domain [Reverse Engineering]. *)
Definition REVERSING : list string := [
  "Buffer Overflow and Stack Smashing";
  "Format String Vulnerabilities";
  "Binary Exploitation with GDB";
  "Shellcode Basics"
].

(** ** Vocabulary of the further properties *)

(** A value [sum] can add to an integer. *)
Definition summable (v : json) : bool :=
  match v with
  | JBool _ | JInt _ => true
  | _ => false
  end.

(** The user's file is absent or holds a record with Boolean flags. *)
Definition stored_flags_ok (user : string) (w : world) : Prop :=
  files w !! get_user_file user = None
  ∨ ∃ d, files w !! get_user_file user = Some (JsonText (JObj d)) ∧ boolean_flags d.

(** The script from the reset button on (lines 175-233), for the roadmap
    and the record of the run. *)
Definition after_sidebar (ROADMAP : list string) (progress : gmap string json)
    (username : string) (ui : widgets) : M unit :=
  when (reset_button ui) (reset_progress ROADMAP username;; st_rerun);;
  available ← lift (available_concepts progress ROADMAP);
  when (match available with [] => false | _ :: _ => true end)
    (when (teach_button ui) (teach_me (selectbox available (picked ui))));;
  concept ← (λ w, (Ok (selected_concept (session w)), w));
  match concept with
  | Some concept =>
      _ ← read_explanation;
      when (regenerate_button ui) (regenerate concept);;
      when (mark_done_button ui) (mark_done progress username concept);;
      when (next_button ui) (next available concept);;
      when (example_button ui) (show_example concept);;
      when (quiz_button ui) (give_quiz concept)
  | None => mret ()
  end.

(** The widgets of a run in domain [d] with no button pressed, and with
    only [Teach Me] or only [Reset Progress] pressed. *)
Definition idle_widgets (d : string) (n : nat) : widgets :=
  mkWidgets d false n false false false false false false.
Definition click_teach (d : string) (n : nat) : widgets :=
  mkWidgets d false n true false false false false false.
Definition click_reset (d : string) : widgets :=
  mkWidgets d true 0 false false false false false false.

(** A world in which the file of [user] holds [content]. *)
Definition with_file (user : string) (content : filedata)
    (s : session_state) (net : list request → request → option response) : world :=
  mkWorld ∅ (<[get_user_file user := content]> fresh_files) s [] net.

(** * Properties *)

(** ** Dictionary comprehensions *)

Lemma dict_comprehension_ok (f : string → result json) (g : string → json)
    (keys : list string) (acc : gmap string json) :
  (∀ k, k ∈ keys → f k = Ok (g k)) →
  dict_comprehension f keys acc = Ok (foldl (λ m k, <[k := g k]> m) acc keys).
Proof.
  revert acc. induction keys as [|k keys IH]; intros acc Hf; simpl; [done|].
  rewrite (Hf k) by left. simpl. apply IH. intros k' Hk'. apply Hf. by right.
Qed.

Lemma lookup_foldl_insert (g : string → json) (keys : list string)
    (acc : gmap string json) (k : string) :
  foldl (λ m k, <[k := g k]> m) acc keys !! k
  = if decide (k ∈ keys) then Some (g k) else acc !! k.
Proof.
  revert acc. induction keys as [|k' keys IH]; intros acc; simpl.
  - destruct (decide (k ∈ [])) as [H|H]; [by apply elem_of_nil in H | done].
  - rewrite IH. destruct (decide (k ∈ keys)) as [Hin|Hout].
    + rewrite decide_True; [done | by right].
    + destruct (decide (k' = k)) as [->|Hne].
      * rewrite lookup_insert_eq. rewrite decide_True; [done | by left].
      * rewrite lookup_insert_ne by done.
        rewrite decide_False; [done|]. rewrite elem_of_cons. intros [?|?]; congruence.
Qed.

Lemma dom_foldl_insert (g : string → json) (keys : list string) :
  dom (foldl (λ m k, <[k := g k]> m) (∅ : gmap string json) keys)
  = (list_to_set keys : gset string).
Proof.
  apply set_eq. intros k. rewrite elem_of_dom, lookup_foldl_insert, lookup_empty.
  rewrite elem_of_list_to_set. case_decide; split; intros H'; try done.
Qed.

Lemma foldl_insert_false (topics : list string) :
  foldl (λ m k, <[k := JBool false]> m) (∅ : gmap string json) topics = all_false topics.
Proof.
  apply map_eq. intros k. rewrite (lookup_foldl_insert (λ _, JBool false)), lookup_empty.
  unfold all_false. rewrite lookup_gset_to_gmap.
  case_decide as Hk.
  - rewrite option_guard_True; [done | by apply elem_of_list_to_set].
  - rewrite option_guard_False; [done | by rewrite elem_of_list_to_set].
Qed.

Lemma comprehension_false (topics : list string) :
  dict_comprehension (λ _, Ok (JBool false)) topics ∅ = Ok (all_false topics).
Proof.
  rewrite (dict_comprehension_ok _ (λ _, JBool false)) by done.
  by rewrite foldl_insert_false.
Qed.

Lemma lookup_all_false (topics : list string) (t : string) :
  all_false topics !! t = if decide (t ∈ topics) then Some (JBool false) else None.
Proof.
  unfold all_false. rewrite lookup_gset_to_gmap. case_decide as Hk.
  - rewrite option_guard_True; [done | by apply elem_of_list_to_set].
  - rewrite option_guard_False; [done | by rewrite elem_of_list_to_set].
Qed.

Lemma dom_all_false (topics : list string) :
  dom (all_false topics) = (list_to_set topics : gset string).
Proof. unfold all_false. by rewrite dom_gset_to_gmap. Qed.

(** ** The progress store *)

Lemma load_progress_missing (topics : list string) (user : string) (w : world) :
  files w !! get_user_file user = None →
  load_progress topics user w = (Ok (all_false topics), w).
Proof. intros H. unfold load_progress. rewrite H. by rewrite comprehension_false. Qed.

Lemma load_progress_stored (topics : list string) (user : string) (w : world)
    (stored : gmap string json) :
  files w !! get_user_file user = Some (JsonText (JObj stored)) →
  load_progress topics user w
  = (Ok (foldl (λ m k, <[k := default (JBool false) (stored !! k)]> m) ∅ topics), w).
Proof.
  intros H. unfold load_progress. rewrite H. simpl.
  by rewrite (dict_comprehension_ok _ (λ k, default (JBool false) (stored !! k))).
Qed.

(** A file that does not hold a JSON object makes the load fail. *)
Example load_progress_unreadable :
  let broken := with_file "alice" Garbage (mkSession None None None None) (answering "") in
  let listed := with_file "alice" (JsonText (JArr [])) (mkSession None None None None)
                  (answering "") in
  (load_progress ["A"] "alice" broken).1 = Raise JSONDecodeError
  ∧ (load_progress ["A"] "alice" listed).1 = Raise AttributeError.
Proof. split; vm_compute; reflexivity. Qed.

(** C1: [load_progress topics user] returns a record whose keys are exactly
    [topics].  Without a file for [user] every topic maps to [False] and
    nothing fails; with a stored record every topic maps to its stored
    value when it has one and to [False] when it has none, and stored keys
    outside [topics] are not in the result. *)
Theorem load_progress_domain_and_values (topics : list string) (user : string) (w : world) :
  (files w !! get_user_file user = None →
   ∃ r, load_progress topics user w = (Ok r, w)
        ∧ dom r = list_to_set topics
        ∧ ∀ t, t ∈ topics → r !! t = Some (JBool false))
  ∧ (∀ stored, files w !! get_user_file user = Some (JsonText (JObj stored)) →
     ∃ r, load_progress topics user w = (Ok r, w)
          ∧ dom r = list_to_set topics
          ∧ (∀ t v, t ∈ topics → stored !! t = Some v → r !! t = Some v)
          ∧ (∀ t, t ∈ topics → stored !! t = None → r !! t = Some (JBool false))
          ∧ (∀ k, k ∉ topics → r !! k = None)).
Proof.
  split.
  - intros H. exists (all_false topics). split; [by apply load_progress_missing|].
    split; [apply dom_all_false|]. intros t Ht.
    rewrite lookup_all_false. by rewrite decide_True.
  - intros stored H. eexists. split; [by apply load_progress_stored|].
    split; [apply dom_foldl_insert|].
    repeat split.
    + intros t v Ht Hv. rewrite lookup_foldl_insert, decide_True by done. by rewrite Hv.
    + intros t Ht Hv. rewrite lookup_foldl_insert, decide_True by done. by rewrite Hv.
    + intros k Hk. by rewrite lookup_foldl_insert, decide_False.
Qed.

Lemma restrict_as_fold (topics : list string) (R : gmap string json) :
  (∀ t, t ∈ topics → is_Some (R !! t)) →
  foldl (λ m k, <[k := default (JBool false) (R !! k)]> m) ∅ topics = restrict topics R.
Proof.
  intros Hdom. apply map_eq. intros k.
  rewrite lookup_foldl_insert, lookup_empty. unfold restrict.
  destruct (decide (k ∈ topics)) as [Hin|Hout].
  - destruct (Hdom k Hin) as [v Hv]. rewrite Hv. simpl. symmetry.
    by apply map_lookup_filter_Some.
  - symmetry. apply map_lookup_filter_None. right. intros v _. done.
Qed.

Lemma save_progress_written (R : gmap string json) (U : string) (w : world) :
  open_for_writing (files w) (get_user_file U) = Ok () →
  save_progress R U w
  = (Ok (), set_files (<[get_user_file U := JsonText (JObj R)]> (files w)) w).
Proof. intros H. unfold save_progress. by rewrite H. Qed.

Lemma save_progress_refused (R : gmap string json) (U : string) (w : world) (e : exn) :
  open_for_writing (files w) (get_user_file U) = Raise e →
  save_progress R U w = (Raise e, w).
Proof. intros H. unfold save_progress. by rewrite H. Qed.

Lemma open_refused_no_file (fs : gmap string filedata) (path : string) (e : exn) :
  open_for_writing fs path = Raise e →
  fs !! path = None ∨ fs !! path = Some Directory.
Proof.
  unfold open_for_writing. destruct (fs !! path) as [[j| |]|]; try done; auto.
Qed.

Lemma reset_progress_save (topics : list string) (user : string) (w : world) :
  reset_progress topics user w = save_progress (all_false topics) user w.
Proof. unfold reset_progress, mbind, M_bind, lift. by rewrite comprehension_false. Qed.

Lemma load_all_false_stored (topics others : list string) (user : string) (w : world) :
  files w !! get_user_file user = Some (JsonText (JObj (all_false topics))) →
  load_progress others user w = (Ok (all_false others), w).
Proof.
  intros H. rewrite (load_progress_stored _ _ _ _ H). f_equal. f_equal.
  apply map_eq. intros k.
  rewrite lookup_foldl_insert, lookup_empty, !lookup_all_false.
  destruct (decide (k ∈ others)); [|done]. by destruct (decide (k ∈ topics)).
Qed.

Lemma load_after_reset (topics others : list string) (user : string) (w : world) :
  files w !! get_user_file user ≠ Some Directory →
  load_progress others user (reset_progress topics user w).2
  = (Ok (all_false others), (reset_progress topics user w).2).
Proof.
  intros Hfile. rewrite reset_progress_save.
  destruct (open_for_writing (files w) (get_user_file user)) as [[]|e] eqn:Hopen.
  - rewrite (save_progress_written _ _ _ Hopen). simpl.
    apply (load_all_false_stored topics). simpl. apply lookup_insert_eq.
  - rewrite (save_progress_refused _ _ _ _ Hopen). simpl.
    destruct (open_refused_no_file _ _ _ Hopen) as [Hnone|Hdir]; [|done].
    by apply load_progress_missing.
Qed.

(** C3, as the code has it: when the file of the user can be opened for
    writing, saving a record [R] that covers [topics] and loading [topics]
    back for the same user gives [R] restricted to [topics]. *)
Theorem save_then_load_restricts (R : gmap string json) (topics : list string)
    (U : string) (w : world) :
  (∀ t, t ∈ topics → is_Some (R !! t)) →
  open_for_writing (files w) (get_user_file U) = Ok () →
  ∃ w', save_progress R U w = (Ok (), w')
        ∧ load_progress topics U w' = (Ok (restrict topics R), w')
        ∧ (save_progress R U;; load_progress topics U) w = (Ok (restrict topics R), w').
Proof.
  intros Hdom Hopen. eexists. split; [by apply save_progress_written|].
  assert (Hload : load_progress topics U
            (set_files (<[get_user_file U := JsonText (JObj R)]> (files w)) w)
          = (Ok (restrict topics R),
             set_files (<[get_user_file U := JsonText (JObj R)]> (files w)) w)).
  { rewrite (load_progress_stored _ _ _ R) by apply lookup_insert_eq.
    by rewrite restrict_as_fold. }
  split; [exact Hload|].
  unfold mbind, M_bind. rewrite (save_progress_written _ _ _ Hopen). exact Hload.
Qed.

(** C3 fails as stated: for the user name [a/b], whose directory nobody
    made, the save raises and stores nothing, and the load that follows
    gives the all-false record, not the record that was to be saved. *)
Lemma save_refused_for_nested_name :
  let w := idle "a/b" None (answering "") in
  let R := <["A" := JBool true]> (∅ : gmap string json) in
  save_progress R "a/b" w = (Raise FileNotFoundError, w)
  ∧ ((save_progress R "a/b";; load_progress ["A"] "a/b") w).1 = Raise FileNotFoundError
  ∧ (r ← (load_progress ["A"] "a/b" (save_progress R "a/b" w).2).1;
     dict_getitem r "A") = Ok (JBool false)
  ∧ restrict ["A"] R !! "A" = Some (JBool true).
Proof. split_and!; vm_compute; reflexivity. Qed.

(** C4: [reset_progress topics user] is [save_progress] of the all-false
    record over [topics], for every topic list and user: the same result
    and the same world, also where the file cannot be written.  Unless a
    directory is in the place of the user's file, a
    [load_progress topics user] in the world after the reset returns that
    record, every topic of [topics] mapped to [False]: the record the
    reset wrote, or, where the write was refused, the record of a user
    without a file. *)
Theorem reset_is_save_all_false (topics : list string) (user : string) (w : world) :
  let w' := (reset_progress topics user w).2 in
  reset_progress topics user w = save_progress (all_false topics) user w
  ∧ (files w !! get_user_file user ≠ Some Directory →
     load_progress topics user w' = (Ok (all_false topics), w'))
  ∧ (open_for_writing (files w) (get_user_file user) = Ok () →
     (reset_progress topics user;; load_progress topics user) w
     = (Ok (all_false topics), w')
     ∧ files w' !! get_user_file user = Some (JsonText (JObj (all_false topics))))
  ∧ dom (all_false topics) = list_to_set topics
  ∧ ∀ t, t ∈ topics → all_false topics !! t = Some (JBool false).
Proof.
  intros w'. subst w'. split_and!.
  - apply reset_progress_save.
  - apply load_after_reset.
  - intros Hopen.
    assert (Hfile : files w !! get_user_file user ≠ Some Directory).
    { intros Hdir. unfold open_for_writing in Hopen. rewrite Hdir in Hopen.
      discriminate Hopen. }
    pose proof (load_after_reset topics topics user w Hfile) as Hload.
    rewrite reset_progress_save in *.
    rewrite (save_progress_written _ _ _ Hopen) in *. split.
    + unfold mbind, M_bind. rewrite reset_progress_save.
      rewrite (save_progress_written _ _ _ Hopen). exact Hload.
    + simpl. apply lookup_insert_eq.
  - apply dom_all_false.
  - intros t Ht. rewrite lookup_all_false. by rewrite decide_True.
Qed.

(** With a directory in the place of the user's file both the reset and
    the load raise. *)
Example reset_onto_directory :
  let w := with_file "alice" Directory (mkSession None None None None) (answering "") in
  reset_progress ["A"] "alice" w = (Raise IsADirectoryError, w)
  ∧ load_progress ["A"] "alice" w = (Raise IsADirectoryError, w).
Proof. split; vm_compute; reflexivity. Qed.

(** ** The progress percentage *)

Lemma py_sum_from_flags (vs : list json) (acc : Z) :
  Forall (λ v, ∃ b, v = JBool b) vs →
  py_sum_from acc vs = Ok (acc + Z.of_nat (length (filter (λ v, truthy v = true) vs))).
Proof.
  intros Hvs. revert acc. induction Hvs as [|v vs [b ->] _ IH]; intros acc.
  - simpl. f_equal. lia.
  - destruct b.
    + rewrite filter_cons_True by done. cbn [py_sum_from py_add mbind result_bind].
      rewrite IH. cbn [length Z.b2z]. f_equal. lia.
    + rewrite filter_cons_False by done. cbn [py_sum_from py_add mbind result_bind].
      rewrite IH. cbn [Z.b2z]. f_equal. lia.
Qed.

(** [sum] does not depend on the order in which a dictionary hands out
    its values. *)
Lemma py_sum_from_perm (vs vs' : list json) :
  vs ≡ₚ vs' → ∀ acc, py_sum_from acc vs = py_sum_from acc vs'.
Proof.
  induction 1 as [|v vs vs' _ IH|v1 v2 vs|vs1 vs2 vs3 _ IH1 _ IH2]; intros acc.
  - done.
  - simpl. destruct (py_add acc v); simpl; [apply IH | done].
  - destruct v1, v2; simpl; try reflexivity; f_equal; lia.
  - by rewrite IH1.
Qed.

Lemma boolean_flags_values (progress : gmap string json) :
  boolean_flags progress → Forall (λ v, ∃ b, v = JBool b) (dict_values progress).
Proof.
  intros Hb. apply Forall_forall. intros v Hv. unfold dict_values in Hv.
  apply list_elem_of_fmap in Hv as [[k v'] [-> Hkv]].
  apply elem_of_map_to_list in Hkv. by apply (Hb k).
Qed.

Lemma py_sum_flags (progress : gmap string json) :
  boolean_flags progress →
  py_sum (dict_values progress) = Ok (Z.of_nat (completed_count progress)).
Proof.
  intros Hb. unfold py_sum. by rewrite py_sum_from_flags by by apply boolean_flags_values.
Qed.

Lemma length_dict_values (progress : gmap string json) :
  length (dict_values progress) = size progress.
Proof. unfold dict_values. by rewrite length_fmap, length_map_to_list. Qed.

Lemma completed_count_le (progress : gmap string json) :
  (completed_count progress ≤ size progress)%nat.
Proof. unfold completed_count. rewrite <- length_dict_values. apply length_filter. Qed.

Lemma filter_truthy_all (vs : list json) :
  Forall (λ v, v = JBool true) vs → filter (λ v, truthy v = true) vs = vs.
Proof.
  induction 1 as [|v vs -> _ IH]; [done|].
  rewrite filter_cons_True by done. by rewrite IH.
Qed.

Lemma completed_count_all (progress : gmap string json) :
  (∀ k v, progress !! k = Some v → v = JBool true) →
  completed_count progress = size progress.
Proof.
  intros Hall. unfold completed_count. rewrite <- length_dict_values.
  rewrite filter_truthy_all; [done|].
  apply Forall_forall. intros v Hv. unfold dict_values in Hv.
  apply list_elem_of_fmap in Hv as [[k v'] [-> Hkv]].
  apply elem_of_map_to_list in Hkv. by apply (Hall k).
Qed.

Lemma size_record (progress : gmap string json) (ROADMAP : list string) :
  NoDup ROADMAP → dom progress = list_to_set ROADMAP →
  size progress = length ROADMAP.
Proof.
  intros Hnd Hdom. rewrite <- size_dom, Hdom. by apply size_list_to_set.
Qed.

Lemma percent_table_49 : percent_table_ok 49 = true.
Proof. vm_compute. reflexivity. Qed.

Lemma percent_of_counts_floor (c t : nat) :
  (c ≤ t)%nat → (1 ≤ t ≤ 49)%nat →
  percent_of_counts (Z.of_nat c) (Z.of_nat t) = Ok (100 * Z.of_nat c / Z.of_nat t).
Proof.
  intros Hc Ht. pose proof percent_table_49 as Htab. unfold percent_table_ok in Htab.
  rewrite forallb_forall in Htab.
  specialize (Htab t). rewrite forallb_forall in Htab.
  assert (Hin : In t (seq 1 49)) by (apply in_seq; lia).
  specialize (Htab Hin c). 
  assert (Hin' : In c (seq 0 (S t))) by (apply in_seq; lia).
  specialize (Htab Hin').
  destruct (percent_of_counts (Z.of_nat c) (Z.of_nat t)) as [p|e]; [|done].
  f_equal. by apply Z.eqb_eq.
Qed.

(** The float computation and the integer quotient part ways at 29 of 50. *)
Example percent_of_counts_29_of_50 :
  percent_of_counts 29 50 = Ok 57 ∧ 100 * 29 / 50 = 58.
Proof. split; vm_compute; reflexivity. Qed.

Example percent_29_of_50 :
  percent (first_done 29 FIFTY) FIFTY = Ok 57
  ∧ py_sum (dict_values (first_done 29 FIFTY)) = Ok 29
  ∧ length FIFTY = 50%nat.
Proof. split_and!; vm_compute; reflexivity. Qed.

(** The roadmap the script works on is never empty: it has 4, 5 or 15
    topics, all different. *)
Lemma roadmap_for_shape (d : string) (ROADMAP : list string) :
  roadmap_for d = Ok ROADMAP →
  NoDup ROADMAP ∧ (4 ≤ length ROADMAP ≤ 15)%nat.
Proof.
  unfold roadmap_for, C_DOMAINS, domains_getitem.
  repeat case_bool_decide; intros [= <-]; try congruence;
    (split; [apply (bool_decide_unpack _); vm_compute; exact I | simpl; lia]).
Qed.


(** Outside the script: for a topic list without topics the division
    raises; [roadmap_for_shape] is what keeps every run away from it. *)
Lemma percent_empty_raises :
  percent ∅ [] = Raise ZeroDivisionError ∧ percent ∅ [] ≠ Ok 0.
Proof. split; [vm_compute; reflexivity | vm_compute; discriminate]. Qed.

(** ** The completion request *)

Lemma get_explanation_exchange (concept : string) (quiz example : bool) (w : world) :
  get_explanation concept quiz example w
  = exchange (chat_request w (instruction_of quiz example) concept) w.
Proof.
  unfold get_explanation, exchange, requests_post, mbind, M_bind, chat_request, reading.
  destruct quiz, example; simpl;
    (destruct (network w (outbox w) _) as [res|]; [|reflexivity]);
    destruct (status_code res =? 200); reflexivity.
Qed.

(** C6: when the service answers with a status other than 200,
    [get_explanation] returns the text made of the cross mark, [Error], the
    status code, a colon and the body, whatever the topic and the mode, and
    raises nothing; [teach_me] stores that text as the explanation.  A 500
    answer with body [rate limited] gives [❌ Error 500: rate limited]. *)
Theorem get_explanation_error_text (concept : string) (quiz example : bool)
    (w : world) (res : response) :
  network w (outbox w) (chat_request w (instruction_of quiz example) concept) = Some res →
  status_code res ≠ 200 →
  let shown := JStr ("❌ Error " +:+ py_str (status_code res) +:+ ": " +:+ text res) in
  (get_explanation concept quiz example w).1 = Ok shown
  ∧ (quiz = false → example = false →
     (teach_me concept w).1 = Ok ()
     ∧ explanation (session (teach_me concept w).2) = Some shown
     ∧ explanation (session (regenerate concept w).2) = Some shown)
  ∧ (status_code res = 500 → text res = "rate limited" →
     shown = JStr "❌ Error 500: rate limited").
Proof.
  intros Hnet Hstatus shown.
  assert (Hread : reading res = Ok shown).
  { unfold reading. by rewrite (proj2 (Z.eqb_neq _ _) Hstatus). }
  split; [|split].
  - rewrite get_explanation_exchange. unfold exchange. simpl. by rewrite Hnet.
  - intros -> ->. unfold teach_me, regenerate, mbind, M_bind. simpl.
    rewrite !get_explanation_exchange. unfold exchange. simpl.
    unfold chat_request, HEADERS in *. simpl in *. rewrite Hnet, Hread. simpl. done.
  - intros H500 Hbody. subst shown. by rewrite H500, Hbody.
Qed.

(** C10: the mode flags of [get_explanation] choose the instruction that
    precedes the topic in the user message and nothing else: the request
    goes to the same place with the same shape and the answer is read the
    same way.  With both flags set the quiz instruction is used and the
    example flag is ignored. *)
Theorem get_explanation_modes (concept : string) (quiz example : bool) (w : world) :
  get_explanation concept quiz example w
  = exchange (chat_request w (instruction_of quiz example) concept) w
  ∧ instruction_of quiz example ∈ [EXPLAIN_INSTRUCTION; QUIZ_INSTRUCTION; EXAMPLE_INSTRUCTION]
  ∧ instruction_of true example = QUIZ_INSTRUCTION
  ∧ get_explanation concept true true w = get_explanation concept true false w.
Proof.
  split; [apply get_explanation_exchange|]. split; [|split].
  - destruct quiz, example; simpl; set_solver.
  - reflexivity.
  - by rewrite !get_explanation_exchange.
Qed.

(** ** Session handlers *)

(** Runs the request inside a handler and splits on what comes back. *)
Ltac run_exchange w :=
  unfold mbind, M_bind; simpl;
  rewrite get_explanation_exchange; unfold exchange; simpl;
  destruct (network w (outbox w) _) as [?res|]; simpl;
  [destruct (reading _) as [?v|?e]; simpl|].

Lemma py_index_first (x : string) (pre rest : list string) :
  x ∉ pre → py_index x (pre ++ x :: rest) = Ok (length pre).
Proof.
  induction pre as [|y pre IH]; intros Hx; simpl.
  - by rewrite bool_decide_eq_true_2.
  - rewrite not_elem_of_cons in Hx. destruct Hx as [Hne Hx].
    rewrite bool_decide_eq_false_2 by congruence. by rewrite IH.
Qed.

Lemma next_advances (pre post : list string) (concept target : string) (w : world) :
  concept ∉ pre →
  next (pre ++ concept :: target :: post) concept w = advance_to target w.
Proof.
  intros Hpre. unfold next, advance_to.
  unfold mbind at 1. unfold M_bind at 1. unfold lift at 1.
  rewrite bool_decide_eq_true_2 by (apply elem_of_app; right; left).
  rewrite py_index_first by done. simpl.
  assert (Hlt : (length pre + 1 <? length (pre ++ concept :: target :: post))%nat = true).
  { apply Nat.ltb_lt. rewrite length_app. simpl. lia. }
  rewrite Hlt.
  assert (Hat : (pre ++ concept :: target :: post)%list !! (length pre + 1)%nat = Some target).
  { rewrite lookup_app_r by lia. by replace (length pre + 1 - length pre)%nat with 1%nat by lia. }
  rewrite Hat. reflexivity.
Qed.

Lemma next_restarts (first : string) (rest : list string) (concept : string) (w : world) :
  concept ∉ first :: rest →
  next (first :: rest) concept w = advance_to first w.
Proof.
  intros Hout. unfold next, advance_to.
  unfold mbind at 1. unfold M_bind at 1. unfold lift at 1.
  rewrite bool_decide_eq_false_2 by done. reflexivity.
Qed.

Lemma next_stays_at_end (pre : list string) (concept : string) (w : world) :
  concept ∉ pre →
  next (pre ++ [concept]) concept w = (Ok (), w).
Proof.
  intros Hpre. unfold next.
  unfold mbind at 1. unfold M_bind at 1. unfold lift at 1.
  rewrite bool_decide_eq_true_2 by (apply elem_of_app; right; left).
  rewrite py_index_first by done. simpl.
  assert (Hlt : (length pre + 1 <? length (pre ++ [concept]))%nat = false).
  { apply Nat.ltb_ge. rewrite length_app. simpl. lia. }
  by rewrite Hlt.
Qed.

Lemma next_stays_when_empty (concept : string) (w : world) :
  next [] concept w = (Ok (), w).
Proof. reflexivity. Qed.

Lemma advance_to_world (target : string) (w : world) :
  let w' := (advance_to target w).2 in
  selected_concept (session w') = Some target
  ∧ outbox w' = (outbox w ++ [chat_request w EXPLAIN_INSTRUCTION target])%list
  ∧ files w' = files w
  ∧ quiz (session w') = quiz (session w)
  ∧ example (session w') = example (session w).
Proof.
  unfold advance_to. run_exchange w; done.
Qed.

Lemma available_concepts_remaining (progress : gmap string json) (ROADMAP : list string) :
  (∀ t, t ∈ ROADMAP → is_Some (progress !! t)) →
  available_concepts progress ROADMAP = Ok (remaining progress ROADMAP).
Proof.
  unfold remaining. induction ROADMAP as [|c rest IH]; intros Hdom; [done|].
  destruct (Hdom c) as [v Hv]; [by left|].
  cbn [available_concepts]. unfold dict_getitem. rewrite Hv.
  cbn [mbind result_bind]. rewrite IH by (intros t Ht; apply Hdom; by right).
  cbn [mbind result_bind]. f_equal.
  destruct (truthy v) eqn:Hflag.
  - rewrite filter_cons_False; [done|]. unfold flag_set. rewrite Hv. congruence.
  - rewrite filter_cons_True; [done|]. unfold flag_set. by rewrite Hv.
Qed.

Lemma elem_of_remaining (progress : gmap string json) (topics : list string) (t : string) :
  t ∈ remaining progress topics ↔ t ∈ topics ∧ flag_set progress t = false.
Proof. unfold remaining. rewrite list_elem_of_filter. tauto. Qed.

Lemma remaining_split (progress : gmap string json) (pre post : list string) (c : string) :
  flag_set progress c = false →
  remaining progress (pre ++ c :: post)
  = (remaining progress pre ++ c :: remaining progress post)%list.
Proof.
  intros Hflag. unfold remaining. by rewrite filter_app, filter_cons_True.
Qed.

Lemma selectbox_elem_of (options : list string) (n : nat) :
  options ≠ [] → selectbox options n ∈ options.
Proof.
  intros Hne. unfold selectbox. destruct (options !! n) as [c|] eqn:Hn; simpl.
  - by apply list_elem_of_lookup_2 in Hn.
  - destruct options as [|c options]; [done|]. by left.
Qed.

Lemma teach_me_world (selected : string) (w : world) :
  let w' := (teach_me selected w).2 in
  selected_concept (session w') = Some selected
  ∧ outbox w' = (outbox w ++ [chat_request w EXPLAIN_INSTRUCTION selected])%list
  ∧ files w' = files w.
Proof.
  unfold teach_me. run_exchange w; done.
Qed.

(** C5, as the code has it.  With the current topic in the remaining list,
    [next] selects the first topic not yet completed that follows it in
    roadmap order and asks for its explanation; when nothing follows, it
    changes nothing: no request, the topic stays selected, nothing is
    raised and nothing is signalled.  With the current topic not in the
    remaining list, [next] selects the first remaining topic and asks for
    its explanation, and changes nothing when no topic remains. *)
Theorem next_button_behaviour (progress : gmap string json) (ROADMAP : list string)
    (concept : string) (w : world) :
  (∀ t, t ∈ ROADMAP → is_Some (progress !! t)) →
  ∃ available, available_concepts progress ROADMAP = Ok available
  ∧ (∀ pre post, ROADMAP = (pre ++ concept :: post)%list → concept ∉ pre →
       flag_set progress concept = false →
       match remaining progress post with
       | target :: _ => next available concept w = advance_to target w
       | [] => next available concept w = (Ok (), w)
       end)
  ∧ (concept ∉ available →
       match available with
       | first :: _ => next available concept w = advance_to first w
       | [] => next available concept w = (Ok (), w)
       end)
  ∧ (∀ target, let w' := (advance_to target w).2 in
       selected_concept (session w') = Some target
       ∧ outbox w' = (outbox w ++ [chat_request w EXPLAIN_INSTRUCTION target])%list).
Proof.
  intros Hdom. exists (remaining progress ROADMAP).
  split; [by apply available_concepts_remaining|]. split; [|split].
  - intros pre post -> Hpre Hflag. rewrite remaining_split by done.
    assert (Hpre' : concept ∉ remaining progress pre).
    { rewrite elem_of_remaining. tauto. }
    destruct (remaining progress post) as [|target rest].
    + by apply next_stays_at_end.
    + by apply next_advances.
  - intros Hout. destruct (remaining progress ROADMAP) as [|first rest].
    + apply next_stays_when_empty.
    + by apply next_restarts.
  - intros target w'. pose proof (advance_to_world target w) as H.
    cbv zeta in H. destruct H as (Hsel & Hout & _). by split.
Qed.

(** C5 fails as stated: from a topic that is not in the remaining list,
    [next] selects a topic and sends a request instead of going idle; from
    the last remaining topic it leaves the topic selected. *)
Lemma next_does_not_go_idle :
  let w := studying "alice" "A" None (answering "about B") in
  selected_concept (session (next ["B"] "A" w).2) = Some "B"
  ∧ outbox (next ["B"] "A" w).2 = [chat_request w EXPLAIN_INSTRUCTION "B"]
  ∧ next ["A"] "A" w = (Ok (), w)
  ∧ selected_concept (session (next ["A"] "A" w).2) = Some "A".
Proof. repeat split; vm_compute; reflexivity. Qed.

(** C7, as the code has it: the list offered for selection holds exactly
    the topics of the roadmap that are not marked completed, in roadmap
    order, so the topic [teach_me] asks about is never a completed one.
    There is no [InvalidTopic] condition. *)
Theorem selection_excludes_completed (progress : gmap string json) (ROADMAP : list string) :
  (∀ t, t ∈ ROADMAP → is_Some (progress !! t)) →
  ∃ available, available_concepts progress ROADMAP = Ok available
  ∧ available = remaining progress ROADMAP
  ∧ (∀ t, t ∈ available ↔ t ∈ ROADMAP ∧ flag_set progress t = false)
  ∧ (∀ t, progress !! t = Some (JBool true) → t ∉ available)
  ∧ (available ≠ [] → ∀ n w,
       let selected := selectbox available n in
       selected ∈ available
       ∧ progress !! selected ≠ Some (JBool true)
       ∧ outbox (teach_me selected w).2
         = (outbox w ++ [chat_request w EXPLAIN_INSTRUCTION selected])%list).
Proof.
  intros Hdom. exists (remaining progress ROADMAP).
  split; [by apply available_concepts_remaining|]. split; [done|].
  assert (Hdone : ∀ t, progress !! t = Some (JBool true) → t ∉ remaining progress ROADMAP).
  { intros t Ht. rewrite elem_of_remaining. unfold flag_set. rewrite Ht. simpl.
    intros [_ ?]. done. }
  split; [apply elem_of_remaining|]. split; [exact Hdone|].
  intros Hne n w selected.
  assert (Hin : selected ∈ remaining progress ROADMAP) by by apply selectbox_elem_of.
  split; [exact Hin|]. split.
  - intros Ht. by apply (Hdone selected).
  - pose proof (teach_me_world selected w) as H.
    cbv zeta in H. by destruct H as (_ & Hout & _).
Qed.

Lemma mark_done_run (progress : gmap string json) (username concept : string)
    (w : world) :
  is_Some (selected_concept (session w)) →
  open_for_writing (files w) (get_user_file username) = Ok () →
  mark_done progress username concept w
  = (Raise RerunException,
     mkWorld (environ w)
       (<[get_user_file username := JsonText (JObj (<[concept := JBool true]> progress))]>
          (files w))
       (mkSession None (explanation (session w)) (quiz (session w)) (example (session w)))
       (outbox w) (network w)).
Proof.
  intros [c Hc] Hopen. unfold mark_done, mbind, M_bind.
  rewrite (save_progress_written _ _ _ Hopen).
  unfold pop_selected_concept. simpl. by rewrite Hc.
Qed.

Lemma mark_done_refused (progress : gmap string json) (username concept : string)
    (w : world) (e : exn) :
  open_for_writing (files w) (get_user_file username) = Raise e →
  mark_done progress username concept w = (Raise e, w).
Proof.
  intros Hopen. unfold mark_done, mbind, M_bind.
  by rewrite (save_progress_refused _ _ _ _ Hopen).
Qed.

(** C8, as the code has it: when the file of the user can be opened for
    writing, [mark_done] sets the flag of the topic to [True], writes the
    updated record to the file and removes the selected topic from the
    session, which ends the run; the cached explanation, quiz and example
    stay in the session. *)
Theorem mark_done_effect (progress : gmap string json) (username concept : string)
    (w : world) :
  is_Some (selected_concept (session w)) →
  open_for_writing (files w) (get_user_file username) = Ok () →
  let updated := <[concept := JBool true]> progress in
  let w' := (mark_done progress username concept w).2 in
  (mark_done progress username concept w).1 = Raise RerunException
  ∧ updated !! concept = Some (JBool true)
  ∧ (∀ t, t ≠ concept → updated !! t = progress !! t)
  ∧ files w' !! get_user_file username = Some (JsonText (JObj updated))
  ∧ (∀ topics, concept ∈ topics →
       ∃ r, load_progress topics username w' = (Ok r, w')
            ∧ r !! concept = Some (JBool true))
  ∧ selected_concept (session w') = None
  ∧ explanation (session w') = explanation (session w)
  ∧ quiz (session w') = quiz (session w)
  ∧ example (session w') = example (session w)
  ∧ outbox w' = outbox w.
Proof.
  intros Hsel Hopen updated w'. subst w'.
  rewrite (mark_done_run _ _ _ _ Hsel Hopen). simpl. fold updated.
  split; [done|]. split; [apply lookup_insert_eq|].
  split; [intros t Ht; by apply lookup_insert_ne|].
  split; [apply lookup_insert_eq|]. split; [|done].
  intros topics Hin. eexists. split.
  - apply load_progress_stored. simpl. apply lookup_insert_eq.
  - rewrite lookup_foldl_insert, decide_True by done.
    unfold updated. by rewrite lookup_insert_eq.
Qed.

(** C8 fails as stated: the cached texts are still in the session after
    [mark_done]. *)
Lemma mark_done_keeps_cache :
  let w := studying "alice" "A" None (answering "about A") in
  let w' := (mark_done (all_false ["A"; "B"]) "alice" "A" w).2 in
  explanation (session w') = Some (JStr "old explanation")
  ∧ quiz (session w') = Some (JStr "old quiz")
  ∧ example (session w') = Some (JStr "old example")
  ∧ ¬ cleared (session w').
Proof.
  split_and!; try (vm_compute; reflexivity).
  intros (_ & [H|H] & _); vm_compute in H; discriminate H.
Qed.

(** C9, as the code has it: [regenerate] asks again for the explanation of
    the topic it is given, the selected one, and leaves the selected topic,
    the cached quiz and the cached example as they are; when an answer
    comes back it replaces the explanation and the run ends. *)
Theorem regenerate_effect (concept : string) (w : world) :
  let w' := (regenerate concept w).2 in
  outbox w' = (outbox w ++ [chat_request w EXPLAIN_INSTRUCTION concept])%list
  ∧ selected_concept (session w') = selected_concept (session w)
  ∧ quiz (session w') = quiz (session w)
  ∧ example (session w') = example (session w)
  ∧ files w' = files w
  ∧ (∀ v, (get_explanation concept false false w).1 = Ok v →
       explanation (session w') = Some v
       ∧ (regenerate concept w).1 = Raise RerunException).
Proof.
  unfold regenerate. run_exchange w; split_and!; try done.
  intros v' [= <-]. done.
Qed.

(** C9 fails as stated: the quiz and example of before are still cached
    after [regenerate]. *)
Lemma regenerate_keeps_quiz_and_example :
  let w := studying "alice" "A" None (answering "new explanation") in
  let w' := (regenerate "A" w).2 in
  explanation (session w') = Some (JStr "new explanation")
  ∧ quiz (session w') = Some (JStr "old quiz")
  ∧ example (session w') = Some (JStr "old example")
  ∧ ¬ (holds_no_text (quiz (session w')) ∧ holds_no_text (example (session w'))).
Proof.
  repeat split; try (vm_compute; reflexivity).
  intros [[H|H] _]; vm_compute in H; discriminate H.
Qed.

(** ** The handlers in a run of the page *)

(** A learner who selected a core topic and then switched to the domain
    [Reverse Engineering] is moved by [next] to the first topic of the
    domain, with a request, and the quiz and example of the old topic stay. *)
Example page_next_from_other_domain :
  let w := studying "alice" "Data Types and Variables" None (answering "text") in
  let w' := (page "alice" (click_next "Reverse Engineering") w).2 in
  selected_concept (session w') = Some "Buffer Overflow and Stack Smashing"
  ∧ outbox w' = [chat_request w EXPLAIN_INSTRUCTION "Buffer Overflow and Stack Smashing"]
  ∧ quiz (session w') = Some (JStr "old quiz").
Proof. repeat split; vm_compute; reflexivity. Qed.

(** [next] from the last remaining topic of the domain: nothing happens. *)
Example page_next_from_last_topic :
  let stored := <["Shellcode Basics" := JBool false]>
                  (gset_to_gmap (JBool true) (list_to_set REVERSING)) in
  let w := studying "alice" "Shellcode Basics" (Some stored) (answering "text") in
  page "alice" (click_next "Reverse Engineering") w = (Ok (), w).
Proof. vm_compute. reflexivity. Qed.

(** [Mark Done] in a run of the page: the flag is stored, the selection is
    gone, the explanation of before is still in the session. *)
Example page_mark_done :
  let w := studying "alice" "Shellcode Basics" None (answering "text") in
  let run := page "alice" (click_mark_done "Reverse Engineering") w in
  run.1 = Raise RerunException
  ∧ (progress ← (load_progress REVERSING "alice" run.2).1;
     dict_getitem progress "Shellcode Basics") = Ok (JBool true)
  ∧ (progress ← (load_progress REVERSING "alice" run.2).1;
     percent progress REVERSING) = Ok 25
  ∧ selected_concept (session run.2) = None
  ∧ explanation (session run.2) = Some (JStr "old explanation")
  ∧ outbox run.2 = [].
Proof. split_and!; vm_compute; reflexivity. Qed.

(** C7 fails as stated: a topic that the stored record marks completed,
    and that this session still has selected, is regenerated with a
    request to the service; nothing is rejected. *)
Lemma completed_topic_is_not_rejected :
  let stored := <["Shellcode Basics" := JBool true]> (all_false REVERSING) in
  let w := studying "bob" "Shellcode Basics" (Some stored) (answering "text") in
  let run := page "bob" (click_regenerate "Reverse Engineering") w in
  (progress ← (load_progress REVERSING "bob" w).1;
   dict_getitem progress "Shellcode Basics") = Ok (JBool true)
  ∧ run.1 = Raise RerunException
  ∧ outbox run.2 = [chat_request w EXPLAIN_INSTRUCTION "Shellcode Basics"]
  ∧ outbox run.2 ≠ outbox w
  ∧ explanation (session run.2) = Some (JStr "text").
Proof. split_and!; try (vm_compute; reflexivity). vm_compute. discriminate. Qed.

(** The scenario of two topics: a fresh learner, [mark_done] on the first,
    half of the roadmap completed, and [next] moving to the second. *)
Example scenario_two_topics :
  let w0 := studying "alice" "A" None (answering "about B") in
  let w1 := (mark_done (all_false ["A"; "B"]) "alice" "A" w0).2 in
  (load_progress ["A"; "B"] "alice" w0).1 = Ok (all_false ["A"; "B"])
  ∧ (progress ← (load_progress ["A"; "B"] "alice" w1).1; percent progress ["A"; "B"]) = Ok 50
  ∧ (progress ← (load_progress ["A"; "B"] "alice" w1).1;
     available_concepts progress ["A"; "B"]) = Ok ["B"]
  ∧ selected_concept (session (next ["B"] "A" w0).2) = Some "B".
Proof. split_and!; vm_compute; reflexivity. Qed.

(** ** Instances *)

Lemma covers_all_false (topics : list string) (t : string) :
  t ∈ topics → is_Some (all_false topics !! t).
Proof. intros Ht. rewrite lookup_all_false, decide_True by done. by eexists. Qed.

Lemma boolean_flags_all_false (topics : list string) : boolean_flags (all_false topics).
Proof.
  intros k v. rewrite lookup_all_false. case_decide; [|done]. intros [= <-]. by eexists.
Qed.

Lemma boolean_flags_insert (progress : gmap string json) (k : string) (b : bool) :
  boolean_flags progress → boolean_flags (<[k := JBool b]> progress).
Proof.
  intros Hb k' v. destruct (decide (k = k')) as [->|Hne].
  - rewrite lookup_insert_eq. intros [= <-]. by eexists.
  - rewrite lookup_insert_ne by done. apply Hb.
Qed.

Lemma load_progress_domain_and_values_witness :
  (∃ r, load_progress ["A"; "B"] "alice" (idle "alice" None (answering "")) 
        = (Ok r, idle "alice" None (answering ""))
        ∧ dom r = list_to_set ["A"; "B"]
        ∧ ∀ t, t ∈ ["A"; "B"] → r !! t = Some (JBool false))
  ∧ (∃ r, load_progress ["A"; "B"] "alice"
            (idle "alice" (Some (<["A" := JBool true]> (<["Z" := JBool true]> ∅))) (answering ""))
          = (Ok r, idle "alice" (Some (<["A" := JBool true]> (<["Z" := JBool true]> ∅)))
                     (answering ""))
          ∧ r !! "A" = Some (JBool true)
          ∧ r !! "B" = Some (JBool false)
          ∧ r !! "Z" = None).
Proof.
  split.
  - apply (proj1 (load_progress_domain_and_values ["A"; "B"] "alice"
                    (idle "alice" None (answering "")))).
    reflexivity.
  - destruct (proj2 (load_progress_domain_and_values ["A"; "B"] "alice"
                (idle "alice" (Some (<["A" := JBool true]> (<["Z" := JBool true]> ∅)))
                   (answering "")))
              (<["A" := JBool true]> (<["Z" := JBool true]> ∅)))
      as (r & Hload & _ & Hstored & Hmissing & Hother).
    + reflexivity.
    + exists r. split; [exact Hload|]. split_and!.
      * apply (Hstored "A"); [by left | reflexivity].
      * apply (Hmissing "B"); [right; by left | reflexivity].
      * apply (Hother "Z"). intros H. vm_compute in H. 
        repeat (apply elem_of_cons in H as [H|H]; [discriminate H|]).
        by apply elem_of_nil in H.
Defined.


Lemma save_then_load_restricts_witness :
  ∃ w', save_progress (<["A" := JBool true]> (all_false ["A"; "B"; "C"])) "alice"
          (idle "alice" None (answering "")) = (Ok (), w')
        ∧ load_progress ["A"; "B"] "alice" w'
          = (Ok (restrict ["A"; "B"] (<["A" := JBool true]> (all_false ["A"; "B"; "C"]))), w').
Proof.
  destruct (save_then_load_restricts (<["A" := JBool true]> (all_false ["A"; "B"; "C"]))
              ["A"; "B"] "alice" (idle "alice" None (answering "")))
    as (w' & Hsave & Hload & _).
  - intros t Ht. destruct (decide (t = "A")) as [->|Hne].
    + rewrite lookup_insert_eq. by eexists.
    + rewrite lookup_insert_ne by done. apply covers_all_false.
      apply elem_of_cons in Ht as [->|Ht]; [done|].
      apply elem_of_cons in Ht as [->|Ht]; [right; by left|].
      by apply elem_of_nil in Ht.
  - reflexivity.
  - exists w'. by split.
Defined.

Lemma reset_is_save_all_false_witness :
  load_progress ["A"; "B"] "alice"
    (reset_progress ["A"; "B"] "alice"
       (idle "alice" (Some (<["A" := JBool true]> ∅)) (answering ""))).2
  = (Ok (all_false ["A"; "B"]),
     (reset_progress ["A"; "B"] "alice"
        (idle "alice" (Some (<["A" := JBool true]> ∅)) (answering ""))).2)
  ∧ load_progress ["A"; "B"] "a/b"
      (reset_progress ["A"; "B"] "a/b" (idle "a/b" None (answering ""))).2
    = (Ok (all_false ["A"; "B"]),
       (reset_progress ["A"; "B"] "a/b" (idle "a/b" None (answering ""))).2).
Proof.
  split.
  - destruct (reset_is_save_all_false ["A"; "B"] "alice"
                (idle "alice" (Some (<["A" := JBool true]> ∅)) (answering "")))
      as (_ & Hload & _).
    apply Hload. intros H. vm_compute in H. discriminate H.
  - destruct (reset_is_save_all_false ["A"; "B"] "a/b" (idle "a/b" None (answering "")))
      as (_ & Hload & _).
    apply Hload. intros H. vm_compute in H. discriminate H.
Defined.

Lemma next_button_behaviour_witness :
  ∃ available, available_concepts (all_false ["A"; "B"]) ["A"; "B"] = Ok available
  ∧ next available "A" (studying "alice" "A" None (answering "about B"))
    = advance_to "B" (studying "alice" "A" None (answering "about B")).
Proof.
  destruct (next_button_behaviour (all_false ["A"; "B"]) ["A"; "B"] "A"
              (studying "alice" "A" None (answering "about B")))
    as (available & Hav & Hnext & _).
  - intros t Ht. by apply covers_all_false.
  - exists available. split; [exact Hav|].
    apply (Hnext [] ["B"]).
    + reflexivity.
    + apply not_elem_of_nil.
    + reflexivity.
Defined.

Lemma get_explanation_error_text_witness :
  (get_explanation "X" false false (idle "alice" None (refusing 500 "rate limited"))).1
  = Ok (JStr "❌ Error 500: rate limited")
  ∧ explanation (session (teach_me "X" (idle "alice" None (refusing 500 "rate limited"))).2)
    = Some (JStr "❌ Error 500: rate limited").
Proof.
  destruct (get_explanation_error_text "X" false false
              (idle "alice" None (refusing 500 "rate limited"))
              (mkResponse 500 "rate limited" None))
    as (Hget & Hteach & Htext).
  - reflexivity.
  - simpl. lia.
  - destruct (Hteach eq_refl eq_refl) as (_ & Hstored & _).
    split; [exact Hget | exact Hstored].
Defined.

Lemma selection_excludes_completed_witness :
  ∃ available,
    available_concepts (<["A" := JBool true]> (all_false ["A"; "B"])) ["A"; "B"] = Ok available
    ∧ "A" ∉ available.
Proof.
  destruct (selection_excludes_completed (<["A" := JBool true]> (all_false ["A"; "B"]))
              ["A"; "B"])
    as (available & Hav & _ & _ & Hdone & _).
  - intros t Ht. destruct (decide (t = "A")) as [->|Hne].
    + rewrite lookup_insert_eq. by eexists.
    + rewrite lookup_insert_ne by done. by apply covers_all_false.
  - exists available. split; [exact Hav|]. apply Hdone. reflexivity.
Defined.

Lemma mark_done_effect_witness :
  (mark_done (all_false ["A"; "B"]) "alice" "A"
     (studying "alice" "A" None (answering "about A"))).1 = Raise RerunException
  ∧ selected_concept (session (mark_done (all_false ["A"; "B"]) "alice" "A"
       (studying "alice" "A" None (answering "about A"))).2) = None.
Proof.
  destruct (mark_done_effect (all_false ["A"; "B"]) "alice" "A"
              (studying "alice" "A" None (answering "about A")))
    as (Hrun & _ & _ & _ & _ & Hsel & _).
  - exists "A". reflexivity.
  - reflexivity.
  - split; [exact Hrun | exact Hsel].
Defined.

(** * Further properties *)

(** ** The path of a user's file *)

Lemma string_app_length (a s : string) :
  String.length (a +:+ s) = (String.length a + String.length s)%nat.
Proof. induction a as [|c a IH]; simpl; [done | by rewrite IH]. Qed.

Lemma string_app_inv_tail (a b s : string) : a +:+ s = b +:+ s → a = b.
Proof.
  revert b. induction a as [|c a IH]; intros [|d b] H.
  - done.
  - apply (f_equal String.length) in H. rewrite !string_app_length in H. simpl in H. lia.
  - apply (f_equal String.length) in H. rewrite !string_app_length in H. simpl in H. lia.
  - simpl in H. injection H as -> H. f_equal. by apply IH.
Qed.

Lemma get_user_file_cases (username : string) :
  get_user_file username
  = if String.prefix "/" username then username +:+ "_progress.json"
    else "user_data_c/" +:+ username +:+ "_progress.json".
Proof.
  destruct username as [|c u]; [reflexivity|].
  unfold get_user_file, path_join.
  change (String c u +:+ "_progress.json") with (String c (u +:+ "_progress.json")).
  cbn [String.prefix].
  destruct (Ascii.ascii_dec _ c); [|reflexivity].
  assert (Hempty : ∀ s, String.prefix "" s = true) by (by intros [|??]).
  by rewrite !Hempty.
Qed.

Lemma prefix_slash (s : string) :
  String.prefix "/" s = true → ∃ s', s = "/" +:+ s'.
Proof.
  destruct s as [|c s]; cbn [String.prefix]; [done|].
  destruct (Ascii.ascii_dec _ c) as [<-|]; [|done]. by eexists.
Qed.

(** X1: the path of a user's file determines the user name: two different
    names never give the same path.  The path lies under [user_data_c/]
    unless the name starts with a slash, in which case it is the name
    itself with the suffix, outside the directory. *)
Theorem get_user_file_paths (u1 u2 : string) :
  (get_user_file u1 = get_user_file u2 → u1 = u2)
  ∧ (String.prefix "/" u1 = false →
     get_user_file u1 = "user_data_c/" +:+ u1 +:+ "_progress.json")
  ∧ (String.prefix "/" u1 = true → get_user_file u1 = u1 +:+ "_progress.json").
Proof.
  split; [|split; intros H; by rewrite get_user_file_cases, H].
  rewrite !get_user_file_cases.
  destruct (String.prefix "/" u1) eqn:H1, (String.prefix "/" u2) eqn:H2; intros H.
  - by apply string_app_inv_tail in H.
  - apply prefix_slash in H1 as [s ->]. simpl in H. discriminate H.
  - apply prefix_slash in H2 as [s ->]. simpl in H. discriminate H.
  - apply (inj (String.append "user_data_c/")) in H. by apply string_app_inv_tail in H.
Qed.

Lemma get_user_file_paths_witness :
  get_user_file "alice" ≠ get_user_file "bob"
  ∧ get_user_file "alice" = "user_data_c/alice_progress.json"
  ∧ get_user_file "/tmp/x" = "/tmp/x_progress.json".
Proof.
  destruct (get_user_file_paths "alice" "bob") as (Hinj & Hin & _).
  destruct (get_user_file_paths "/tmp/x" "bob") as (_ & _ & Hout).
  split_and!.
  - intros H. apply Hinj in H. discriminate H.
  - apply Hin. reflexivity.
  - apply Hout. reflexivity.
Defined.

(** ** The progress store, continued *)

Lemma load_progress_world (topics : list string) (user : string) (w : world) :
  (load_progress topics user w).2 = w.
Proof.
  unfold load_progress. destruct (files w !! get_user_file user) as [[j| |]|]; done.
Qed.

Lemma dict_comprehension_keys (f : string → result json) (keys : list string)
    (acc r : gmap string json) (t : string) :
  dict_comprehension f keys acc = Ok r →
  is_Some (r !! t) ↔ is_Some (acc !! t) ∨ t ∈ keys.
Proof.
  revert acc. induction keys as [|k keys IH]; intros acc; simpl.
  - intros [= <-]. split; [by left | intros [?|H]; [done | by apply elem_of_nil in H]].
  - destruct (f k) as [v|e]; simpl; [|done]. intros H. rewrite (IH _ H).
    rewrite lookup_insert_is_Some, elem_of_cons. split.
    + intros [[->|[_ Hs]]|Hin]; [right; by left | by left | right; by right].
    + intros [Hs|[->|Hin]]; [|left; by left | by right].
      destruct (decide (k = t)) as [->|Hne]; [left; by left | left; right; by split].
Qed.

Lemma load_progress_keys (topics : list string) (user : string) (w w' : world)
    (r : gmap string json) :
  load_progress topics user w = (Ok r, w') →
  w' = w ∧ dom r = list_to_set topics ∧ ∀ t, t ∈ topics → is_Some (r !! t).
Proof.
  intros Hload.
  assert (Hw : w' = w).
  { pose proof (load_progress_world topics user w) as H. by rewrite Hload in H. }
  assert (Hkeys : ∀ t, is_Some (r !! t) ↔ t ∈ topics).
  { intros t. unfold load_progress in Hload.
    destruct (files w !! get_user_file user) as [[j| |]|]; try done;
      injection Hload as Hr _; rewrite (dict_comprehension_keys _ _ _ _ t Hr);
      rewrite lookup_empty; split; [intros [[? ?]|?]; done | by right
                                   | intros [[? ?]|?]; done | by right]. }
  split_and!; [done | | by intros t; apply Hkeys].
  apply set_eq. intros t. by rewrite elem_of_dom, Hkeys, elem_of_list_to_set.
Qed.

Lemma sidebar_rows_ok (progress : gmap string json) (topics : list string) :
  (∀ t, t ∈ topics → is_Some (progress !! t)) →
  ∃ rows, sidebar_rows progress topics = Ok rows ∧ length rows = length topics.
Proof.
  induction topics as [|t topics IH]; intros Hcov; [by exists []|].
  destruct (Hcov t) as [v Hv]; [by left|].
  destruct IH as (rows & Hrows & Hlen); [intros t' Ht'; apply Hcov; by right|].
  eexists. cbn [sidebar_rows]. unfold dict_getitem. rewrite Hv. cbn [mbind result_bind].
  rewrite Hrows. cbn [mbind result_bind]. split; [done|]. simpl. by rewrite Hlen.
Qed.

(** X2: [load_progress] never changes files, session or outbox.  It raises
    [JSONDecodeError] when the user's file is not JSON, and
    [AttributeError] when the file is JSON but not an object and at least
    one topic is asked for; with no topic asked for, any JSON file loads
    as the empty record. *)
Theorem load_progress_failures (topics : list string) (user : string) (w : world) :
  (load_progress topics user w).2 = w
  ∧ (files w !! get_user_file user = Some Garbage →
     (load_progress topics user w).1 = Raise JSONDecodeError)
  ∧ (∀ j, files w !! get_user_file user = Some (JsonText j) →
          (∀ d, j ≠ JObj d) → topics ≠ [] →
          (load_progress topics user w).1 = Raise AttributeError)
  ∧ (∀ j, files w !! get_user_file user = Some (JsonText j) → topics = [] →
          (load_progress topics user w).1 = Ok ∅).
Proof.
  split; [apply load_progress_world|]. unfold load_progress. split_and!.
  - by intros ->.
  - intros j -> Hj Hne. destruct topics as [|k keys]; [done|]. simpl.
    destruct j; try done. by destruct (Hj d).
  - by intros j -> ->.
Qed.

Lemma load_progress_failures_witness :
  (load_progress ["A"] "alice"
     (with_file "alice" Garbage (mkSession None None None None) (answering ""))).1
  = Raise JSONDecodeError
  ∧ (load_progress ["A"] "alice"
       (with_file "alice" (JsonText (JArr [])) (mkSession None None None None)
          (answering ""))).1
    = Raise AttributeError
  ∧ (load_progress [] "alice"
       (with_file "alice" (JsonText (JArr [])) (mkSession None None None None)
          (answering ""))).1
    = Ok ∅.
Proof.
  split_and!.
  - apply (load_progress_failures ["A"] "alice"
             (with_file "alice" Garbage (mkSession None None None None) (answering ""))).
    reflexivity.
  - apply (proj1 (proj2 (proj2 (load_progress_failures ["A"] "alice"
             (with_file "alice" (JsonText (JArr [])) (mkSession None None None None)
                (answering ""))))) (JArr [])).
    + reflexivity.
    + intros d H. discriminate H.
    + intros H. discriminate H.
  - apply (proj2 (proj2 (proj2 (load_progress_failures [] "alice"
             (with_file "alice" (JsonText (JArr [])) (mkSession None None None None)
                (answering ""))))) (JArr [])).
    + reflexivity.
    + reflexivity.
Defined.

(** X3: whatever [load_progress topics] returns has exactly [topics] as
    keys, so the selector and the sidebar built from it in the same run
    never raise [KeyError]: the selector is the list of topics not marked
    completed and the sidebar has one row per topic. *)
Theorem loaded_record_feeds_page (topics : list string) (user : string)
    (w w' : world) (r : gmap string json) :
  load_progress topics user w = (Ok r, w') →
  w' = w
  ∧ dom r = list_to_set topics
  ∧ available_concepts r topics = Ok (remaining r topics)
  ∧ ∃ rows, sidebar_rows r topics = Ok rows ∧ length rows = length topics.
Proof.
  intros Hload. destruct (load_progress_keys _ _ _ _ _ Hload) as (Hw & Hdom & Hcov).
  split_and!; [done | done | by apply available_concepts_remaining
              | by apply sidebar_rows_ok].
Qed.

Lemma loaded_record_feeds_page_witness :
  available_concepts (all_false ["A"; "B"]) ["A"; "B"]
  = Ok (remaining (all_false ["A"; "B"]) ["A"; "B"]).
Proof.
  destruct (loaded_record_feeds_page ["A"; "B"] "alice"
              (idle "alice" None (answering "")) (idle "alice" None (answering ""))
              (all_false ["A"; "B"]))
    as (_ & _ & Hav & _).
  - apply load_progress_missing. reflexivity.
  - exact Hav.
Defined.

(** X4: in the world that [reset_progress] for one topic list leaves,
    [load_progress] for any topic list, of the same domain or of another,
    returns the all-false record: a reset in one domain erases the stored
    progress of all.  This holds whether the reset wrote the file or was
    refused for want of a directory, since then the user has no file. *)
Theorem reset_wipes_every_topic (topics others : list string) (user : string) (w : world) :
  files w !! get_user_file user ≠ Some Directory →
  load_progress others user (reset_progress topics user w).2
  = (Ok (all_false others), (reset_progress topics user w).2).
Proof. apply load_after_reset. Qed.

Lemma reset_wipes_every_topic_witness :
  load_progress ["Z"] "alice"
    (reset_progress ["A"; "B"] "alice"
       (idle "alice" (Some (<["Z" := JBool true]> ∅)) (answering ""))).2
  = (Ok (all_false ["Z"]),
     (reset_progress ["A"; "B"] "alice"
        (idle "alice" (Some (<["Z" := JBool true]> ∅)) (answering ""))).2).
Proof.
  apply (reset_wipes_every_topic ["A"; "B"] ["Z"] "alice"
           (idle "alice" (Some (<["Z" := JBool true]> ∅)) (answering ""))).
  intros H. vm_compute in H. discriminate H.
Defined.

(** X5: [mark_done] saves the record that was loaded for the current
    roadmap, so afterwards every topic outside that roadmap, the one just
    marked apart, loads as not completed, whatever the file held before. *)
Theorem mark_done_forgets_other_topics (ROADMAP : list string) (username concept : string)
    (w : world) (r : gmap string json) :
  load_progress ROADMAP username w = (Ok r, w) →
  is_Some (selected_concept (session w)) →
  let w' := (mark_done r username concept w).2 in
  ∀ others t, t ∈ others → t ∉ ROADMAP → t ≠ concept →
    ∃ r', load_progress others username w' = (Ok r', w')
          ∧ r' !! t = Some (JBool false).
Proof.
  intros Hload Hsel w' others t Hin Hout Hne.
  destruct (load_progress_keys _ _ _ _ _ Hload) as (_ & Hdom & _).
  destruct (open_for_writing (files w) (get_user_file username)) as [[]|e] eqn:Hopen.
  - assert (Hw' : files w' !! get_user_file username
                  = Some (JsonText (JObj (<[concept := JBool true]> r)))).
    { subst w'. rewrite (mark_done_run _ _ _ _ Hsel Hopen). simpl.
      apply lookup_insert_eq. }
    eexists. split; [by apply load_progress_stored|].
    rewrite lookup_foldl_insert, decide_True by done.
    rewrite lookup_insert_ne by done.
    assert (r !! t = None) as ->; [|done].
    apply not_elem_of_dom. rewrite Hdom. by rewrite elem_of_list_to_set.
  - subst w'. rewrite (mark_done_refused _ _ _ _ _ Hopen). simpl.
    destruct (open_refused_no_file _ _ _ Hopen) as [Hnone|Hdir].
    + exists (all_false others). split; [by apply load_progress_missing|].
      by rewrite lookup_all_false, decide_True.
    + unfold load_progress in Hload. rewrite Hdir in Hload. discriminate Hload.
Qed.

Lemma mark_done_forgets_other_topics_witness :
  let w := studying "alice" "A" (Some (<["Z" := JBool true]> ∅)) (answering "") in
  ∃ r r', load_progress ["A"; "B"] "alice" w = (Ok r, w)
          ∧ (load_progress ["Z"] "alice" (mark_done r "alice" "A" w).2).1 = Ok r'
          ∧ r' !! "Z" = Some (JBool false).
Proof.
  intros w.
  assert (Hload : load_progress ["A"; "B"] "alice" w
                  = (Ok (foldl (λ m k, <[k := default (JBool false)
                           ((<["Z" := JBool true]> ∅ : gmap string json) !! k)]> m)
                           ∅ ["A"; "B"]), w)).
  { apply load_progress_stored. reflexivity. }
  destruct (mark_done_forgets_other_topics ["A"; "B"] "alice" "A" w _ Hload
              (ex_intro _ "A" eq_refl) ["Z"] "Z") as (r' & Hr' & Hz).
  - by left.
  - intros H. repeat (apply elem_of_cons in H as [H|H]; [discriminate H|]).
    by apply elem_of_nil in H.
  - discriminate.
  - eexists _, r'. split_and!; [exact Hload | by rewrite Hr' | exact Hz].
Defined.

(** ** The percentage and the selector, continued *)

Lemma dict_getitem_Some (d : gmap string json) (key : string) (v : json) :
  d !! key = Some v → dict_getitem d key = Ok v.
Proof. intros H. unfold dict_getitem. by rewrite H. Qed.

Lemma py_sum_from_type_error (vs : list json) (v : json) (acc : Z) :
  v ∈ vs → summable v = false → py_sum_from acc vs = Raise TypeError.
Proof.
  intros Hin Hv. revert acc. induction vs as [|x vs IH]; intros acc.
  - by apply elem_of_nil in Hin.
  - apply elem_of_cons in Hin as [<-|Hin].
    + destruct v; try done.
    + simpl. destruct (py_add acc x) as [acc'|e] eqn:Hadd; simpl.
      * by apply IH.
      * destruct x; simpl in Hadd; congruence.
Qed.

(** X6: when some flag of the record is neither a Boolean nor an integer
    (a string, a list, an object or null), the percentage raises
    [TypeError], whatever the other flags and the roadmap are. *)
Theorem percent_type_error (progress : gmap string json) (ROADMAP : list string)
    (k : string) (v : json) :
  progress !! k = Some v → summable v = false →
  percent progress ROADMAP = Raise TypeError.
Proof.
  intros Hk Hv. unfold percent, py_sum.
  rewrite (py_sum_from_type_error _ v); [done| |done].
  unfold dict_values. apply list_elem_of_fmap. exists (k, v). split; [done|].
  by apply elem_of_map_to_list.
Qed.

Lemma percent_type_error_witness :
  percent (<["A" := JStr "yes"]> (all_false ["A"; "B"])) ["A"; "B"] = Raise TypeError.
Proof.
  apply (percent_type_error _ _ "A" (JStr "yes")); reflexivity.
Defined.

Lemma percent_floor_of_record (progress : gmap string json) (ROADMAP : list string) :
  NoDup ROADMAP → dom progress = list_to_set ROADMAP → boolean_flags progress →
  (1 ≤ length ROADMAP ≤ 49)%nat →
  percent progress ROADMAP
  = Ok (100 * Z.of_nat (completed_count progress) / Z.of_nat (length ROADMAP))
  ∧ (completed_count progress ≤ length ROADMAP)%nat.
Proof.
  intros Hnd Hdom Hflags Hlen.
  pose proof (size_record _ _ Hnd Hdom) as Hsize.
  pose proof (completed_count_le progress) as Hle. rewrite Hsize in Hle.
  split; [|done]. unfold percent. rewrite py_sum_flags by done. simpl.
  apply percent_of_counts_floor; lia.
Qed.

Lemma load_progress_flags (topics : list string) (user : string) (w : world) :
  stored_flags_ok user w →
  ∃ r, load_progress topics user w = (Ok r, w)
       ∧ dom r = list_to_set topics ∧ boolean_flags r.
Proof.
  intros [Hnone|(d & Hd & Hflags)].
  - exists (all_false topics). split_and!.
    + by apply load_progress_missing.
    + apply dom_all_false.
    + apply boolean_flags_all_false.
  - eexists. split_and!.
    + by apply load_progress_stored.
    + apply dom_foldl_insert.
    + intros k v. rewrite lookup_foldl_insert, lookup_empty.
      case_decide; [|done]. intros [= <-].
      destruct (d !! k) as [v|] eqn:Hk; simpl; [by apply (Hflags k) | by eexists].
Qed.

(** X7: in a run of the page the percentage is always defined when the
    user's file is absent or holds Boolean flags: for every domain the
    roadmap is not empty, so the division never raises, and the value is
    the integer quotient, between 0 and 100. *)
Theorem page_percent_defined (d user : string) (ROADMAP : list string) (w : world) :
  roadmap_for d = Ok ROADMAP →
  stored_flags_ok user w →
  ∃ r p, load_progress ROADMAP user w = (Ok r, w)
         ∧ percent r ROADMAP = Ok p
         ∧ p = 100 * Z.of_nat (completed_count r) / Z.of_nat (length ROADMAP)
         ∧ 0 ≤ p ≤ 100.
Proof.
  intros Hroad Hstored.
  destruct (roadmap_for_shape _ _ Hroad) as [Hnd Hlen].
  destruct (load_progress_flags ROADMAP user w Hstored) as (r & Hload & Hdom & Hflags).
  destruct (percent_floor_of_record r ROADMAP) as [Hp Hle]; [done | done | done | lia |].
  exists r, (100 * Z.of_nat (completed_count r) / Z.of_nat (length ROADMAP)).
  split_and!; [done | done | done | |].
  - apply Z.div_pos; lia.
  - apply Z.div_le_upper_bound; lia.
Qed.

Lemma page_percent_defined_witness :
  ∃ r p, load_progress REVERSING "alice" (idle "alice" None (answering "")) 
         = (Ok r, idle "alice" None (answering ""))
         ∧ percent r REVERSING = Ok p ∧ 0 ≤ p ≤ 100.
Proof.
  destruct (page_percent_defined "Reverse Engineering" "alice" REVERSING
              (idle "alice" None (answering "")))
    as (r & p & Hload & Hp & _ & Hrange).
  - reflexivity.
  - left. reflexivity.
  - exists r, p. split_and!; [exact Hload | exact Hp | apply Hrange | apply Hrange].
Defined.

Lemma remaining_nil_iff (progress : gmap string json) (topics : list string) :
  remaining progress topics = [] ↔ ∀ t, t ∈ topics → flag_set progress t = true.
Proof.
  split.
  - intros Hnil t Ht. destruct (flag_set progress t) eqn:Hflag; [done|].
    assert (t ∈ remaining progress topics) as Hin by by apply elem_of_remaining.
    rewrite Hnil in Hin. by apply elem_of_nil in Hin.
  - intros Hall. destruct (remaining progress topics) as [|t rest] eqn:Hrem; [done|].
    assert (t ∈ remaining progress topics) as Hin by (rewrite Hrem; by left).
    apply elem_of_remaining in Hin as [Hin Hflag]. rewrite (Hall t Hin) in Hflag. done.
Qed.

Lemma completed_count_full (progress : gmap string json) :
  completed_count progress = size progress →
  ∀ k v, progress !! k = Some v → truthy v = true.
Proof.
  intros Hfull k v Hk. destruct (truthy v) eqn:Hv; [done|].
  assert (Hin : v ∈ dict_values progress).
  { unfold dict_values. apply list_elem_of_fmap. exists (k, v). split; [done|].
    by apply elem_of_map_to_list. }
  pose proof (length_filter_lt (λ v, truthy v = true) _ v Hin) as Hlt.
  unfold completed_count in Hfull. rewrite length_dict_values in Hlt.
  rewrite Hfull in Hlt.
  assert (size progress < size progress)%nat; [apply Hlt; congruence | lia].
Qed.

(** X8: for a record with Boolean flags over a roadmap without repetitions
    of 1 to 49 topics, the selector offers nothing exactly when the
    percentage is 100. *)
Theorem nothing_left_iff_hundred (progress : gmap string json) (ROADMAP : list string) :
  NoDup ROADMAP → dom progress = list_to_set ROADMAP → boolean_flags progress →
  (1 ≤ length ROADMAP ≤ 49)%nat →
  available_concepts progress ROADMAP = Ok [] ↔ percent progress ROADMAP = Ok 100.
Proof.
  intros Hnd Hdom Hflags Hlen.
  assert (Hcov : ∀ t, t ∈ ROADMAP → is_Some (progress !! t)).
  { intros t Ht. apply elem_of_dom. rewrite Hdom. by apply elem_of_list_to_set. }
  rewrite (available_concepts_remaining _ _ Hcov).
  destruct (percent_floor_of_record _ _ Hnd Hdom Hflags Hlen) as [-> Hle].
  pose proof (size_record _ _ Hnd Hdom) as Hsize.
  split.
  - intros [= Hnil]. f_equal. rewrite remaining_nil_iff in Hnil.
    rewrite completed_count_all, Hsize; [rewrite Z.div_mul; lia|].
    intros k v Hk. destruct (Hflags k v Hk) as [b ->].
    assert (Hin : k ∈ ROADMAP).
    { apply (elem_of_list_to_set (C := gset string)). rewrite <- Hdom.
      apply elem_of_dom. by eexists. }
    specialize (Hnil k Hin). unfold flag_set in Hnil. rewrite Hk in Hnil. simpl in Hnil.
    by rewrite Hnil.
  - intros [= Hp]. f_equal. apply remaining_nil_iff. intros t Ht.
    assert (Hfull : completed_count progress = size progress).
    { rewrite Hsize.
      destruct (decide (completed_count progress < length ROADMAP)%nat) as [Hlt|]; [|lia].
      exfalso.
      assert (100 * Z.of_nat (completed_count progress) / Z.of_nat (length ROADMAP) < 100);
        [|lia].
      apply Z.div_lt_upper_bound; lia. }
    destruct (Hcov t Ht) as [v Hv]. unfold flag_set. rewrite Hv.
    by apply (completed_count_full _ Hfull t).
Qed.

Lemma nothing_left_iff_hundred_witness :
  available_concepts (<["A" := JBool true]> (all_false ["A"])) ["A"] = Ok []
  ↔ percent (<["A" := JBool true]> (all_false ["A"])) ["A"] = Ok 100.
Proof.
  apply (nothing_left_iff_hundred (<["A" := JBool true]> (all_false ["A"])) ["A"]).
  - apply (bool_decide_unpack _). vm_compute. exact I.
  - vm_compute. reflexivity.
  - apply boolean_flags_insert, boolean_flags_all_false.
  - simpl. lia.
Defined.

(** X9: the selector and the sidebar raise [KeyError] for the first topic
    of the roadmap that the record has no entry for. *)
Theorem missing_topic_raises (progress : gmap string json) (pre post : list string)
    (t : string) :
  (∀ x, x ∈ pre → is_Some (progress !! x)) →
  progress !! t = None →
  available_concepts progress (pre ++ t :: post) = Raise (KeyError (JStr t))
  ∧ sidebar_rows progress (pre ++ t :: post) = Raise (KeyError (JStr t)).
Proof.
  intros Hpre Ht. induction pre as [|x pre IH].
  - simpl. unfold dict_getitem. by rewrite Ht.
  - destruct (Hpre x) as [v Hv]; [by left|].
    destruct IH as [IHa IHs]; [intros y Hy; apply Hpre; by right|].
    change ((x :: pre) ++ t :: post)%list with (x :: (pre ++ t :: post))%list.
    cbn [available_concepts sidebar_rows].
    rewrite (dict_getitem_Some _ _ _ Hv), IHa, IHs. done.
Qed.

Lemma missing_topic_raises_witness :
  available_concepts (all_false ["A"]) ["A"; "B"; "C"] = Raise (KeyError (JStr "B")).
Proof.
  apply (missing_topic_raises (all_false ["A"]) ["A"] ["C"] "B").
  - intros x Hx. by apply covers_all_false.
  - reflexivity.
Defined.

(** ** The completion request, continued *)

Lemma get_explanation_result (concept : string) (quiz example : bool) (w : world) :
  (get_explanation concept quiz example w).1
  = match network w (outbox w) (chat_request w (instruction_of quiz example) concept) with
    | Some res => reading res
    | None => Raise RequestException
    end.
Proof. by rewrite get_explanation_exchange. Qed.

Lemma get_explanation_after (concept : string) (quiz example : bool) (w : world) :
  (get_explanation concept quiz example w).2
  = set_outbox (outbox w ++ [chat_request w (instruction_of quiz example) concept]) w.
Proof. by rewrite get_explanation_exchange. Qed.

(** X10: on a 200 answer whose body is an object with a list [choices],
    the first choice holding an object [message] with an entry [content],
    [get_explanation] returns that entry as it is, text or not. *)
Theorem get_explanation_content (concept : string) (quiz example : bool) (w : world)
    (res : response) (body choice message : gmap string json) (rest : list json)
    (content : json) :
  network w (outbox w) (chat_request w (instruction_of quiz example) concept) = Some res →
  status_code res = 200 →
  body_json res = Some (JObj body) →
  body !! "choices" = Some (JArr (JObj choice :: rest)) →
  choice !! "message" = Some (JObj message) →
  message !! "content" = Some content →
  (get_explanation concept quiz example w).1 = Ok content.
Proof.
  intros Hnet Hstatus Hbody Hchoices Hmessage Hcontent.
  rewrite get_explanation_result, Hnet. unfold reading, res_json.
  rewrite Hstatus, Hbody. cbn [Z.eqb Pos.eqb mbind result_bind subscript].
  rewrite (dict_getitem_Some _ _ _ Hchoices). cbn [mbind result_bind subscript_int].
  change ((JObj choice :: rest) !! 0%nat) with (Some (JObj choice)).
  cbn [mbind result_bind subscript].
  rewrite (dict_getitem_Some _ _ _ Hmessage). cbn [mbind result_bind subscript].
  apply (dict_getitem_Some _ _ _ Hcontent).
Qed.

Lemma get_explanation_content_witness :
  (get_explanation "Pointers" false true (idle "alice" None (answering "text"))).1
  = Ok (JStr "text").
Proof.
  apply (get_explanation_content "Pointers" false true
           (idle "alice" None (answering "text")) (completion "text")
           (<["choices" := JArr [
               JObj (<["message" := JObj (<["content" := JStr "text"]> ∅)]> ∅)]]> ∅)
           (<["message" := JObj (<["content" := JStr "text"]> ∅)]> ∅)
           (<["content" := JStr "text"]> ∅) []); reflexivity.
Defined.

(** X11: a 200 answer that is not of that shape makes [get_explanation]
    raise, after the request has gone out: [JSONDecodeError] when the body
    is not JSON, [KeyError] when it is an object without [choices],
    [IndexError] when [choices] is an empty list. *)
Theorem get_explanation_malformed_success (concept : string) (quiz example : bool)
    (w : world) (res : response) :
  network w (outbox w) (chat_request w (instruction_of quiz example) concept) = Some res →
  status_code res = 200 →
  (body_json res = None →
   (get_explanation concept quiz example w).1 = Raise JSONDecodeError)
  ∧ (∀ body, body_json res = Some (JObj body) → body !! "choices" = None →
     (get_explanation concept quiz example w).1 = Raise (KeyError (JStr "choices")))
  ∧ (∀ body, body_json res = Some (JObj body) → body !! "choices" = Some (JArr []) →
     (get_explanation concept quiz example w).1 = Raise IndexError)
  ∧ outbox (get_explanation concept quiz example w).2
    = (outbox w ++ [chat_request w (instruction_of quiz example) concept])%list.
Proof.
  intros Hnet Hstatus. rewrite get_explanation_result, get_explanation_after, Hnet.
  unfold reading, res_json. rewrite Hstatus. simpl. split_and!.
  - by intros ->.
  - intros body -> Hc. simpl. unfold dict_getitem. by rewrite Hc.
  - intros body -> Hc. simpl. unfold dict_getitem. by rewrite Hc.
  - done.
Qed.

Lemma get_explanation_malformed_success_witness :
  (get_explanation "Pointers" false false (idle "alice" None (refusing 200 "<html>"))).1
  = Raise JSONDecodeError
  ∧ (get_explanation "Pointers" false false
       (idle "alice" None (λ _ _, Some (mkResponse 200 "{}" (Some (JObj ∅)))))).1
    = Raise (KeyError (JStr "choices")).
Proof.
  split.
  - apply (get_explanation_malformed_success "Pointers" false false
             (idle "alice" None (refusing 200 "<html>")) (mkResponse 200 "<html>" None));
      reflexivity.
  - apply (proj1 (proj2 (get_explanation_malformed_success "Pointers" false false
             (idle "alice" None (λ _ _, Some (mkResponse 200 "{}" (Some (JObj ∅)))))
             (mkResponse 200 "{}" (Some (JObj ∅))) eq_refl eq_refl)) ∅); reflexivity.
Defined.

(** X12: whatever comes back, [get_explanation] sends exactly one request,
    to [API_URL], for [MODEL], with the JSON content type and with the
    authorization [Bearer] followed by the API key, or by [None] when the
    environment has no key; it touches neither files nor session. *)
Theorem get_explanation_sends_one_request (concept : string) (quiz example : bool)
    (w : world) :
  let w' := (get_explanation concept quiz example w).2 in
  ∃ req, outbox w' = (outbox w ++ [req])%list
  ∧ req_url req = API_URL
  ∧ req_headers req !! "Authorization"
    = Some ("Bearer " +:+ default "None" (environ w !! "OPENROUTER_API_KEY"))
  ∧ req_headers req !! "Content-Type" = Some "application/json"
  ∧ subscript (req_json req) "model" = Ok (JStr MODEL)
  ∧ files w' = files w ∧ session w' = session w ∧ environ w' = environ w.
Proof.
  intros w'. subst w'. rewrite get_explanation_after.
  eexists. split; [reflexivity|]. split_and!; done.
Qed.

(** ** The handlers, continued *)

Lemma teach_me_run (selected : string) (w : world) (v : json) :
  (get_explanation selected false false w).1 = Ok v →
  teach_me selected w
  = (Ok (),
     mkWorld (environ w) (files w)
       (mkSession (Some selected) (Some v) (Some JNull) (Some JNull))
       (outbox w ++ [chat_request w EXPLAIN_INSTRUCTION selected]) (network w)).
Proof.
  rewrite get_explanation_result. intros Hget.
  unfold teach_me, mbind, M_bind. simpl.
  rewrite get_explanation_exchange. unfold exchange. simpl.
  unfold chat_request, HEADERS in *. simpl in *. rewrite Hget. done.
Qed.

(** X13: when the explanation arrives, [teach_me] leaves the session with
    the topic selected, the explanation stored and the quiz and example
    set to [None], whatever they were; one request has gone out and no
    file has changed. *)
Theorem teach_me_success (selected : string) (w : world) (v : json) :
  (get_explanation selected false false w).1 = Ok v →
  (teach_me selected w).1 = Ok ()
  ∧ session (teach_me selected w).2
    = mkSession (Some selected) (Some v) (Some JNull) (Some JNull)
  ∧ outbox (teach_me selected w).2
    = (outbox w ++ [chat_request w EXPLAIN_INSTRUCTION selected])%list
  ∧ files (teach_me selected w).2 = files w.
Proof.
  intros Hget. by rewrite (teach_me_run _ _ _ Hget).
Qed.

Lemma teach_me_success_witness :
  session (teach_me "B" (studying "alice" "A" None (answering "about B"))).2
  = mkSession (Some "B") (Some (JStr "about B")) (Some JNull) (Some JNull).
Proof.
  apply (teach_me_success "B" (studying "alice" "A" None (answering "about B"))
           (JStr "about B")).
  reflexivity.
Defined.

(** X14: when the request raises, [teach_me] raises the same and leaves
    the new topic selected beside the explanation, quiz and example of
    before. *)
Theorem teach_me_failure (selected : string) (w : world) (e : exn) :
  (get_explanation selected false false w).1 = Raise e →
  (teach_me selected w).1 = Raise e
  ∧ session (teach_me selected w).2
    = mkSession (Some selected) (explanation (session w)) (quiz (session w))
        (example (session w))
  ∧ outbox (teach_me selected w).2
    = (outbox w ++ [chat_request w EXPLAIN_INSTRUCTION selected])%list.
Proof.
  rewrite get_explanation_result. intros Hget.
  unfold teach_me, mbind, M_bind. simpl.
  rewrite get_explanation_exchange. unfold exchange. simpl.
  unfold chat_request, HEADERS in *. simpl in *. rewrite Hget. done.
Qed.

Lemma teach_me_failure_witness :
  (teach_me "B" (studying "alice" "A" None (λ _ _, None))).1 = Raise RequestException
  ∧ session (teach_me "B" (studying "alice" "A" None (λ _ _, None))).2
    = mkSession (Some "B") (Some (JStr "old explanation")) (Some (JStr "old quiz"))
        (Some (JStr "old example")).
Proof.
  destruct (teach_me_failure "B" (studying "alice" "A" None (λ _ _, None))
              RequestException) as (Hrun & Hsession & _).
  - reflexivity.
  - split; [exact Hrun | exact Hsession].
Defined.

(** X15: when [next] moves on to the following topic, the quiz and the
    example cached for the previous topic stay in the session beside the
    new selection; the explanation is replaced when the answer arrives. *)
Theorem next_keeps_quiz_and_example (pre post : list string) (concept target : string)
    (w : world) :
  concept ∉ pre →
  let w' := (next (pre ++ concept :: target :: post) concept w).2 in
  selected_concept (session w') = Some target
  ∧ quiz (session w') = quiz (session w)
  ∧ example (session w') = example (session w)
  ∧ (∀ v, (get_explanation target false false w).1 = Ok v →
       explanation (session w') = Some v).
Proof.
  intros Hpre w'. subst w'. rewrite next_advances by done.
  pose proof (advance_to_world target w) as H. cbv zeta in H.
  destruct H as (Hsel & _ & _ & Hquiz & Hexample). split_and!; try done.
  intros v. rewrite get_explanation_result. intros Hget.
  unfold advance_to, mbind, M_bind. simpl.
  rewrite get_explanation_exchange. unfold exchange. simpl.
  unfold chat_request, HEADERS in *. simpl in *. by rewrite Hget.
Qed.

Lemma next_keeps_quiz_and_example_witness :
  selected_concept
    (session (next ["A"; "B"] "A" (studying "alice" "A" None (answering "about B"))).2)
  = Some "B"
  ∧ quiz (session (next ["A"; "B"] "A" (studying "alice" "A" None (answering "about B"))).2)
    = Some (JStr "old quiz").
Proof.
  destruct (next_keeps_quiz_and_example [] [] "A" "B"
              (studying "alice" "A" None (answering "about B")))
    as (Hsel & Hquiz & _).
  - apply not_elem_of_nil.
  - split; [exact Hsel | exact Hquiz].
Defined.

(** X16: [show_example] and [give_quiz] each send one request, with the
    example and the quiz instruction, and store the answer in their own
    session entry only: the selected topic, the explanation, the other
    entry and the files are unchanged, and nothing is stored when the
    request raises. *)
Theorem example_and_quiz_effect (concept : string) (w : world) :
  let we := (show_example concept w).2 in
  let wq := (give_quiz concept w).2 in
  (outbox we = (outbox w ++ [chat_request w EXAMPLE_INSTRUCTION concept])%list
   ∧ selected_concept (session we) = selected_concept (session w)
   ∧ explanation (session we) = explanation (session w)
   ∧ quiz (session we) = quiz (session w)
   ∧ files we = files w
   ∧ (∀ v, (get_explanation concept false true w).1 = Ok v →
        (show_example concept w).1 = Ok () ∧ example (session we) = Some v)
   ∧ (∀ e, (get_explanation concept false true w).1 = Raise e →
        (show_example concept w).1 = Raise e ∧ example (session we) = example (session w)))
  ∧ (outbox wq = (outbox w ++ [chat_request w QUIZ_INSTRUCTION concept])%list
     ∧ selected_concept (session wq) = selected_concept (session w)
     ∧ explanation (session wq) = explanation (session w)
     ∧ example (session wq) = example (session w)
     ∧ files wq = files w
     ∧ (∀ v, (get_explanation concept true false w).1 = Ok v →
          (give_quiz concept w).1 = Ok () ∧ quiz (session wq) = Some v)
     ∧ (∀ e, (get_explanation concept true false w).1 = Raise e →
          (give_quiz concept w).1 = Raise e ∧ quiz (session wq) = quiz (session w))).
Proof.
  intros we wq. subst we wq. rewrite !get_explanation_result.
  unfold show_example, give_quiz, mbind, M_bind.
  rewrite !get_explanation_exchange. unfold exchange. simpl.
  split.
  - destruct (network w (outbox w) _) as [res|]; simpl.
    + destruct (reading res) as [v|e]; simpl; split_and!; try done.
      * by intros ? [= <-].
      * by intros ? [= <-].
    + split_and!; try done. by intros ? [= <-].
  - destruct (network w (outbox w) _) as [res|]; simpl.
    + destruct (reading res) as [v|e]; simpl; split_and!; try done.
      * by intros ? [= <-].
      * by intros ? [= <-].
    + split_and!; try done. by intros ? [= <-].
Qed.

(** ** A run of the page *)

Lemma st_progress_table :
  forallb (λ p, match st_progress (Z.of_nat p) with Ok _ => true | Raise _ => false end)
          (seq 0 101) = true.
Proof. vm_compute. reflexivity. Qed.

(** The progress bar accepts every percentage from 0 to 100. *)
Lemma st_progress_range (p : Z) : 0 ≤ p ≤ 100 → st_progress p = Ok ().
Proof.
  intros Hp. pose proof st_progress_table as T.
  rewrite List.forallb_forall in T. specialize (T (Z.to_nat p)).
  rewrite Z2Nat.id in T by lia.
  destruct (st_progress p) as [[]|e]; [done|].
  discriminate T. apply in_seq. lia.
Qed.

Lemma page_prelude (username : string) (ui : widgets) (w : world) (ROADMAP : list string) :
  roadmap_for (domain ui) = Ok ROADMAP →
  stored_flags_ok username w →
  ∃ r, load_progress ROADMAP username w = (Ok r, w)
       ∧ dom r = list_to_set ROADMAP ∧ boolean_flags r
       ∧ page username ui w = after_sidebar ROADMAP r username ui w.
Proof.
  intros Hroad Hstored.
  destruct (roadmap_for_shape _ _ Hroad) as [Hnd Hlen].
  destruct (load_progress_flags ROADMAP username w Hstored) as (r & Hload & Hdom & Hflags).
  exists r. split_and!; try done.
  destruct (percent_floor_of_record r ROADMAP) as [Hp Hle]; [done | done | done | lia |].
  assert (Hbar : st_progress (100 * Z.of_nat (completed_count r) / Z.of_nat (length ROADMAP))
                 = Ok ()).
  { apply st_progress_range. split.
    - apply Z.div_pos; lia.
    - apply Z.div_le_upper_bound; lia. }
  destruct (sidebar_rows_ok r ROADMAP) as (rows & Hrows & _).
  { intros t Ht. apply elem_of_dom. rewrite Hdom. by apply elem_of_list_to_set. }
  unfold page. unfold mbind at 1. unfold M_bind at 1. unfold lift at 1. rewrite Hroad.
  unfold mbind at 1. unfold M_bind at 1. rewrite Hload.
  unfold mbind at 1. unfold M_bind at 1. unfold lift at 1. rewrite Hp.
  unfold mbind at 1. unfold M_bind at 1. unfold lift at 1. rewrite Hbar.
  unfold mbind at 1. unfold M_bind at 1. unfold lift at 1. rewrite Hrows.
  reflexivity.
Qed.

(** X17: a run of the page in which no button is pressed changes nothing:
    no file, no session entry, no request, whether the run ends normally
    or raises. *)
Theorem page_without_click_is_read_only (username d : string) (n : nat) (w : world) :
  (page username (idle_widgets d n) w).2 = w.
Proof.
  unfold page, idle_widgets, mbind, M_bind, lift, when. simpl.
  destruct (roadmap_for d) as [R|]; [|done].
  pose proof (load_progress_world R username w) as Hw.
  destruct (load_progress R username w) as [[r|e] w1]; simpl in Hw; subst w1; [|done].
  destruct (percent r R) as [p|]; [|done].
  destruct (st_progress p); [|done].
  destruct (sidebar_rows r R); [|done].
  destruct (available_concepts r R) as [av|]; [|done].
  destruct av; simpl; destruct (selected_concept (session w)); try done;
    unfold read_explanation; destruct (explanation (session w)); done.
Qed.

(** X18: when the user's file is not JSON, every run of the page raises
    [JSONDecodeError] before any button is looked at, the reset button
    included, and leaves the file as it is. *)
Theorem page_unreadable_file (username : string) (ui : widgets) (w : world)
    (ROADMAP : list string) :
  roadmap_for (domain ui) = Ok ROADMAP →
  files w !! get_user_file username = Some Garbage →
  page username ui w = (Raise JSONDecodeError, w).
Proof.
  intros Hroad Hfile. unfold page.
  unfold mbind at 1. unfold M_bind at 1. unfold lift at 1. rewrite Hroad.
  unfold mbind at 1. unfold M_bind at 1. unfold load_progress. by rewrite Hfile.
Qed.

Lemma page_unreadable_file_witness :
  page "alice" (click_reset "Reverse Engineering")
    (with_file "alice" Garbage (mkSession None None None None) (answering ""))
  = (Raise JSONDecodeError,
     with_file "alice" Garbage (mkSession None None None None) (answering "")).
Proof.
  apply (page_unreadable_file "alice" (click_reset "Reverse Engineering")
           (with_file "alice" Garbage (mkSession None None None None) (answering ""))
           REVERSING); reflexivity.
Defined.

(** X19: with the reset button pressed, the user's file absent or holding
    Boolean flags, and the file's path open for writing (its directory
    exists), the run writes the all-false record of the current roadmap
    to the user's file and ends in a rerun; the session, the selected
    topic included, is left as it was and no request is sent. *)
Theorem page_reset (username : string) (ui : widgets) (w : world) (ROADMAP : list string) :
  roadmap_for (domain ui) = Ok ROADMAP →
  stored_flags_ok username w →
  open_for_writing (files w) (get_user_file username) = Ok () →
  reset_button ui = true →
  page username ui w
  = (Raise RerunException,
     set_files (<[get_user_file username := JsonText (JObj (all_false ROADMAP))]> (files w)) w).
Proof.
  intros Hroad Hstored Hopen Hreset.
  destruct (page_prelude username ui w ROADMAP Hroad Hstored) as (r & _ & _ & _ & ->).
  unfold after_sidebar. rewrite Hreset.
  unfold when. unfold mbind at 1. unfold M_bind at 1.
  unfold mbind at 1. unfold M_bind at 1.
  rewrite reset_progress_save, (save_progress_written _ _ _ Hopen). reflexivity.
Qed.

Lemma page_reset_witness :
  (page "alice" (click_reset "Reverse Engineering")
     (studying "alice" "Shellcode Basics" None (answering ""))).1 = Raise RerunException
  ∧ selected_concept (session (page "alice" (click_reset "Reverse Engineering")
       (studying "alice" "Shellcode Basics" None (answering ""))).2)
    = Some "Shellcode Basics".
Proof.
  rewrite (page_reset "alice" (click_reset "Reverse Engineering")
             (studying "alice" "Shellcode Basics" None (answering "")) REVERSING
             eq_refl (or_introl eq_refl) eq_refl eq_refl).
  split; reflexivity.
Defined.

(** X20: with a topic selected and no explanation stored, as a first
    [teach_me] whose request raised leaves the session, a run in which
    neither [Reset] nor [Teach Me] is pressed raises [AttributeError]
    before any of the topic's buttons is looked at. *)
Theorem page_selected_without_explanation (username : string) (ui : widgets) (w : world)
    (ROADMAP : list string) (concept : string) :
  roadmap_for (domain ui) = Ok ROADMAP →
  stored_flags_ok username w →
  reset_button ui = false → teach_button ui = false →
  selected_concept (session w) = Some concept →
  explanation (session w) = None →
  page username ui w = (Raise AttributeError, w).
Proof.
  intros Hroad Hstored Hreset Hteach Hsel Hexp.
  destruct (page_prelude username ui w ROADMAP Hroad Hstored) as (r & _ & Hdom & _ & ->).
  unfold after_sidebar. rewrite Hreset, Hteach.
  rewrite available_concepts_remaining.
  2:{ intros t Ht. apply elem_of_dom. rewrite Hdom. by apply elem_of_list_to_set. }
  unfold when, mbind, M_bind, lift, read_explanation. simpl.
  destruct (remaining r ROADMAP); simpl; by rewrite Hsel, Hexp.
Qed.

Lemma page_selected_without_explanation_witness :
  page "alice" (click_regenerate "Reverse Engineering")
    (teach_me "Shellcode Basics" (idle "alice" None (λ _ _, None))).2
  = (Raise AttributeError, (teach_me "Shellcode Basics" (idle "alice" None (λ _ _, None))).2).
Proof.
  apply (page_selected_without_explanation "alice" (click_regenerate "Reverse Engineering")
           (teach_me "Shellcode Basics" (idle "alice" None (λ _ _, None))).2
           REVERSING "Shellcode Basics"); try reflexivity.
  left. reflexivity.
Defined.

(** X21: when the stored record marks every topic of the roadmap completed
    and no topic is selected, a run with any buttons but [Reset] pressed
    does nothing: no request, no change of session or file. *)
Theorem page_all_done_is_inert (username : string) (ui : widgets) (w : world)
    (ROADMAP : list string) (stored : gmap string json) :
  roadmap_for (domain ui) = Ok ROADMAP →
  files w !! get_user_file username = Some (JsonText (JObj stored)) →
  boolean_flags stored →
  (∀ t, t ∈ ROADMAP → stored !! t = Some (JBool true)) →
  reset_button ui = false →
  selected_concept (session w) = None →
  page username ui w = (Ok (), w).
Proof.
  intros Hroad Hfile Hflags Hall Hreset Hsel.
  destruct (page_prelude username ui w ROADMAP Hroad) as (r & Hload & Hdom & _ & ->).
  { right. by exists stored. }
  rewrite (load_progress_stored _ _ _ stored Hfile) in Hload. injection Hload as <-.
  unfold after_sidebar. rewrite Hreset.
  rewrite available_concepts_remaining.
  2:{ intros t Ht. apply elem_of_dom. rewrite Hdom. by apply elem_of_list_to_set. }
  assert (Hnil : remaining
            (foldl (λ m k, <[k := default (JBool false) (stored !! k)]> m) ∅ ROADMAP)
            ROADMAP = []).
  { apply remaining_nil_iff. intros t Ht. unfold flag_set.
    rewrite lookup_foldl_insert, decide_True by done. by rewrite (Hall t Ht). }
  rewrite Hnil. unfold when, mbind, M_bind, lift. simpl. by rewrite Hsel.
Qed.

Lemma page_all_done_is_inert_witness :
  page "alice" (click_teach "Reverse Engineering" 0)
    (idle "alice" (Some (gset_to_gmap (JBool true) (list_to_set REVERSING))) (answering ""))
  = (Ok (),
     idle "alice" (Some (gset_to_gmap (JBool true) (list_to_set REVERSING))) (answering "")).
Proof.
  apply (page_all_done_is_inert "alice" (click_teach "Reverse Engineering" 0)
           (idle "alice" (Some (gset_to_gmap (JBool true) (list_to_set REVERSING)))
              (answering ""))
           REVERSING (gset_to_gmap (JBool true) (list_to_set REVERSING))).
  - reflexivity.
  - reflexivity.
  - intros k v Hk. apply lookup_gset_to_gmap_Some in Hk as [_ <-]. by eexists.
  - intros t Ht. apply lookup_gset_to_gmap_Some. split; [|done].
    by apply elem_of_list_to_set.
  - reflexivity.
  - reflexivity.
Defined.

(** X22: with [Teach Me] pressed alone and topics left, the run asks for
    the explanation of the picked topic, which belongs to the roadmap and
    is not marked completed, and when the answer arrives ends normally
    with that topic selected, its explanation stored and quiz and example
    set to [None]. *)
Theorem page_teach_me (username d : string) (n : nat) (w : world)
    (ROADMAP : list string) (r : gmap string json) (v : json) :
  roadmap_for d = Ok ROADMAP →
  stored_flags_ok username w →
  load_progress ROADMAP username w = (Ok r, w) →
  remaining r ROADMAP ≠ [] →
  let selected := selectbox (remaining r ROADMAP) n in
  (get_explanation selected false false w).1 = Ok v →
  selected ∈ ROADMAP ∧ flag_set r selected = false
  ∧ page username (click_teach d n) w
    = (Ok (),
       mkWorld (environ w) (files w)
         (mkSession (Some selected) (Some v) (Some JNull) (Some JNull))
         (outbox w ++ [chat_request w EXPLAIN_INSTRUCTION selected]) (network w)).
Proof.
  intros Hroad Hstored Hload Hne selected Hget.
  assert (Hin : selected ∈ remaining r ROADMAP) by by apply selectbox_elem_of.
  apply elem_of_remaining in Hin as [Hin Hflag]. split_and!; [done | done |].
  destruct (page_prelude username (click_teach d n) w ROADMAP Hroad Hstored)
    as (r' & Hload' & Hdom & _ & ->).
  rewrite Hload in Hload'. injection Hload' as <-.
  unfold after_sidebar, click_teach. cbn [reset_button teach_button regenerate_button
    mark_done_button next_button example_button quiz_button picked].
  rewrite available_concepts_remaining.
  2:{ intros t Ht. apply elem_of_dom. rewrite Hdom. by apply elem_of_list_to_set. }
  subst selected. destruct (remaining r ROADMAP) as [|c rest] eqn:Hrem; [done|].
  unfold when, mbind, M_bind, lift, mret, M_ret.
  rewrite (teach_me_run _ _ _ Hget). reflexivity.
Qed.

Lemma page_teach_me_witness :
  page "alice" (click_teach "Reverse Engineering" 1) (idle "alice" None (answering "text"))
  = (Ok (),
     mkWorld ∅ fresh_files
       (mkSession (Some "Format String Vulnerabilities") (Some (JStr "text"))
          (Some JNull) (Some JNull))
       [chat_request (idle "alice" None (answering "text")) EXPLAIN_INSTRUCTION
          "Format String Vulnerabilities"]
       (answering "text")).
Proof.
  apply (page_teach_me "alice" "Reverse Engineering" 1 (idle "alice" None (answering "text"))
           REVERSING (all_false REVERSING) (JStr "text")).
  - reflexivity.
  - left. reflexivity.
  - apply load_progress_missing. reflexivity.
  - vm_compute. discriminate.
  - vm_compute. reflexivity.
Defined.

(** ** Where the progress file can be written *)












(** X25: lines 92-93 never raise in the embedding and leave something at
    [user_data_c]: a directory when nothing was there, what was there
    otherwise; every other path, the session and the requests are as
    before, and a second run changes nothing more. *)
Theorem ensure_user_dir_effect (w : world) :
  let w' := (ensure_user_dir w).2 in
  (ensure_user_dir w).1 = Ok ()
  ∧ (files w !! USER_DIR = None → files w' !! USER_DIR = Some Directory)
  ∧ (is_Some (files w !! USER_DIR) → w' = w)
  ∧ (∀ path, path ≠ USER_DIR → files w' !! path = files w !! path)
  ∧ session w' = session w ∧ outbox w' = outbox w
  ∧ ensure_user_dir w' = (Ok (), w').
Proof.
  unfold ensure_user_dir. cbv zeta.
  destruct (decide (is_Some (files w !! USER_DIR))) as [Hsome|Hnone].
  - rewrite (bool_decide_eq_true_2 _ Hsome). simpl. split_and!; try done.
    + intros H. rewrite H in Hsome. by destruct Hsome.
    + by rewrite (bool_decide_eq_true_2 _ Hsome).
  - rewrite (bool_decide_eq_false_2 _ Hnone). simpl. split_and!; try done.
    + intros _. apply lookup_insert_eq.
    + intros path Hpath. by apply lookup_insert_ne.
    + rewrite bool_decide_eq_true_2; [done|]. rewrite lookup_insert_eq. by eexists.
Qed.
